(** * HomeAssistant support backend: data-access objects and HTTP routes

    A shallow embedding of the three data-access modules
    (dao-temperatures, dao-switches, dao-lights) and of the express routes
    of the server, followed by the properties of the specification that
    were checked against them.

    Conventions of the embedding.
    - A table is the list of its rows in the store's natural order.
    - A Promise is a function of the world (the three tables and the
      schedule of driver failures) that resolves or rejects and gives the
      world afterwards.
    - Values of JavaScript that reach the store or the validator are
      [jsval]; what the platform does with them (the SQL driver's
      comparison of a bound parameter with an integer column, [Number] on
      a string, the express-validator chains, the users DAO) is taken as a
      parameter of the development. *)

From Stdlib Require Import ZArith List String Ascii Bool Lia Permutation Sorted.
Import ListNotations.
Local Open Scope string_scope.
Local Open Scope list_scope.
Local Open Scope Z_scope.

(** ** JavaScript values *)

(** A number is an integer, NaN, or any other double, carried by its bit
    pattern (two such doubles are equal exactly when the patterns are). *)
Inductive jsnum : Type :=
| NInt (z : Z)
| NNaN
| NFloat (bits : Z).

Inductive jsval : Type :=
| JUndefined
| JNull
| JBool (b : bool)
| JNum (n : jsnum)
| JStr (s : string)
| JObject.

Definition jsInt (z : Z) : jsval := JNum (NInt z).

(** [a === b] on two numbers. *)
Definition numStrictEq (a b : jsnum) : bool :=
  match a, b with
  | NInt x, NInt y => Z.eqb x y
  | NFloat x, NFloat y => Z.eqb x y
  | _, _ => false
  end.

(** [v !== n] where [n] is a number: the only use of [!==] in the routes. *)
Definition strictNeqNum (v : jsval) (n : jsnum) : bool :=
  match v with
  | JNum m => negb (numStrictEq m n)
  | _ => true
  end.

(** ** Rows, tables and the world *)

Record row : Type := mkRow {
  row_id : Z;
  row_date : string;
  row_value : jsval;
  row_user : Z
}.

(** The object literal handed to a create function: no id yet. *)
Record draft : Type := mkDraft {
  draft_date : string;
  draft_value : jsval;
  draft_user : Z
}.

(** [dayjs(e.date)]: the date object built from the stored string. *)
Inductive Dayjs : Type := dayjs (date : string).

(** A row as the list functions return it:
    [Object.assign({}, e, { date: dayjs(e.date) })]. *)
Record listed : Type := mkListed {
  listed_id : Z;
  listed_date : Dayjs;
  listed_value : jsval;
  listed_user : Z
}.

Definition withDayjs (e : row) : listed :=
  mkListed (row_id e) (dayjs (row_date e)) (row_value e) (row_user e).

(** What a get function resolves with: a copy of the row, or the object
    [{ error: <message> }]. *)
Inductive lookup : Type :=
| Found (r : row)
| NotFound (error : string).

(** The lookup made of what [db.get] found. *)
Definition lookupOf (notFound : string) (found : option row) : lookup :=
  match found with
  | None => NotFound notFound
  | Some r => Found r
  end.

Definition dberr : Type := string.

Inductive outcome (A : Type) : Type :=
| Resolved (a : A)
| Rejected (e : dberr).
Arguments Resolved {A} a.
Arguments Rejected {A} e.

Inductive tableName : Type := Temperatures | Switches | Lights.

(** [faults] is the schedule of driver failures: each statement takes the
    head; [Some e] makes it fail with [e] and change nothing. An exhausted
    schedule means no further failure. *)
Record world : Type := mkWorld {
  temperatures : list row;
  switches : list row;
  lights : list row;
  faults : list (option dberr)
}.

Definition rowsOf (t : tableName) (w : world) : list row :=
  match t with
  | Temperatures => temperatures w
  | Switches => switches w
  | Lights => lights w
  end.

Definition setRows (t : tableName) (rs : list row) (w : world) : world :=
  match t with
  | Temperatures => mkWorld rs (switches w) (lights w) (faults w)
  | Switches => mkWorld (temperatures w) rs (lights w) (faults w)
  | Lights => mkWorld (temperatures w) (switches w) rs (faults w)
  end.

Definition setFaults (fs : list (option dberr)) (w : world) : world :=
  mkWorld (temperatures w) (switches w) (lights w) fs.

(** ** Promises *)

Definition Promise (A : Type) : Type := world -> outcome A * world.

Definition resolve {A : Type} (a : A) : Promise A := fun w => (Resolved a, w).

Definition andThen {A B : Type} (p : Promise A) (k : A -> Promise B) : Promise B :=
  fun w =>
    match p w with
    | (Resolved a, w') => k a w'
    | (Rejected e, w') => (Rejected e, w')
    end.

Declare Scope promise_scope.
Delimit Scope promise_scope with promise.
Notation "x <- p ;; k" := (andThen p (fun x => k))
  (at level 100, p at next level, right associativity) : promise_scope.
Local Open Scope promise_scope.

(** ** The store *)

(** The world once a statement has been taken off the schedule. *)
Definition advance (w : world) : world := setFaults (tl (faults w)) w.

(** Modelled from the spec: the relational store behind [require('./db')],
    an external collaborator "assumed to provide durable CRUD and
    auto-incrementing identifiers". A statement either fails as the
    schedule says, leaving the tables alone, or runs on the rows of its
    table; what is written is what is read back. *)
Definition statement {A : Type} (t : tableName)
    (exec : list row -> A * list row) : Promise A :=
  fun w =>
    match hd None (faults w) with
    | Some e => (Rejected e, advance w)
    | None =>
        let (a, rs) := exec (rowsOf t w) in
        (Resolved a, setRows t rs (advance w))
    end.

(** The next [n] statements do not fail. *)
Fixpoint quiet (n : nat) (fs : list (option dberr)) : bool :=
  match n with
  | O => true
  | S n' =>
      match hd None fs with
      | None => quiet n' (tl fs)
      | Some _ => false
      end
  end.

(** Modelled from the spec: the identifier the store assigns to an
    inserted row ([this.lastID]), one more than the largest in the table. *)
Definition assignedId (rs : list row) : Z :=
  1 + fold_right (fun r m => Z.max (row_id r) m) 0 rs.

(** The ids of a table are distinct: the store keeps them unique. *)
Definition distinctIds (rs : list row) : Prop := NoDup (map row_id rs).

(** Rows by descending date, earlier rows first among equal dates:
    [ORDER BY date DESC] on the text of the date. *)
Fixpoint insertDesc (r : row) (rs : list row) : list row :=
  match rs with
  | [] => [r]
  | x :: rest =>
      if String.ltb (row_date r) (row_date x)
      then x :: insertDesc r rest
      else r :: x :: rest
  end.

Definition orderByDateDesc (rs : list row) : list row :=
  fold_right insertDesc [] rs.

(** No later row is dated after an earlier one. *)
Definition byDateDesc : list row -> Prop :=
  StronglySorted (fun a b => String.leb (row_date b) (row_date a) = true).

(** ** The server *)

(** The user object kept in the session: id, username and name. *)
Record user : Type := mkUser {
  user_id : Z;
  username : string;
  name : string
}.

(** What a route reads of a request: [req.params.id] and the fields of the
    JSON body ([JUndefined] for a field that is absent). *)
Record request : Type := mkRequest {
  params_id : string;
  body_id : jsval;
  body_user : jsval;
  body_value : jsval
}.

(** What comes with a request: the user of its session, if it has one
    ([req.user], [req.isAuthenticated()]), and the clock
    ([dayjs.utc().format()]). *)
Record context : Type := mkContext {
  session : option user;
  now : string
}.

(** The bodies the server sends. [JsonError e] is [{ error: e }] with [e] a
    string, [JsonErrorMessage m] is [{ error: { message: m } }]. *)
Inductive json : Type :=
| JsonRow (r : row)
| JsonRows (rs : list listed)
| JsonError (error : string)
| JsonErrorMessage (message : string)
| JsonUser (u : user)
| JsonDbError (err : dberr)
| JsonEmpty
| NoBody.

Record response : Type := mkResponse {
  status : Z;
  body : json
}.

Definition jsonOfLookup (result : lookup) : json :=
  match result with
  | Found r => JsonRow r
  | NotFound e => JsonError e
  end.

(** The store operations a route invokes, with the user it passes. *)
Inductive daoOp : Type := OpList | OpGet | OpGetLast | OpCreate | OpUpdate | OpDelete.

Record daoCall : Type := mkCall {
  call_op : daoOp;
  call_table : tableName;
  call_user : jsval
}.

Record handled : Type := mkHandled {
  sent : response;
  after : world;
  calls : list daoCall
}.

(** express-validator: a chain checks one rule on the named fields. *)
Inductive rule : Type := isInt | isFloat | isBoolean.

Record chain : Type := check {
  chain_fields : list string;
  chain_rule : rule
}.

Record verror : Type := mkVerror {
  location : string;
  param : string;
  msg : string
}.

(** ** A platform to run the examples on

    Digits in a string denote their number, for the store as for [Number];
    the validator looks at the two body fields the chains name; one user
    is known. *)

Definition digitValue (c : ascii) : option Z :=
  let n := Z.of_N (N_of_ascii c) in
  if (48 <=? n) && (n <=? 57) then Some (n - 48) else None.

Fixpoint digitsFrom (acc : Z) (s : string) : option Z :=
  match s with
  | EmptyString => Some acc
  | String c rest =>
      match digitValue c with
      | Some d => digitsFrom (10 * acc + d) rest
      | None => None
      end
  end.

Definition decimal (s : string) : option Z :=
  match s with
  | EmptyString => None
  | _ => digitsFrom 0 s
  end.

Definition decimalCoerce (p : jsval) : option Z :=
  match p with
  | JStr s => decimal s
  | _ => None
  end.

Definition decimalNumber (s : string) : jsnum :=
  match decimal s with
  | Some z => NInt z
  | None => NNaN
  end.

Definition oneUser (username password : string) : option user :=
  if (username =? "mario")%string && (password =? "secret")%string
  then Some (mkUser 1 "mario" "Mario")
  else None.

Definition passes (r : rule) (v : jsval) : bool :=
  match r, v with
  | isInt, JNum (NInt _) => true
  | isFloat, JNum (NInt _) => true
  | isFloat, JNum (NFloat _) => true
  | isBoolean, JBool _ => true
  | _, _ => false
  end.

Definition bodyField (field : string) (req : request) : jsval :=
  if (field =? "id")%string then body_id req
  else if (field =? "value")%string then body_value req
  else JUndefined.

Definition bodyValidation (chains : list chain) (req : request) : list verror :=
  flat_map (fun c =>
    flat_map (fun field =>
      if passes (chain_rule c) (bodyField field req) then []
      else [mkVerror "body" field "Invalid value"]) (chain_fields c)) chains.

(** ** A house to run the examples on *)

Definition kitchenSwitch : row := mkRow 5 "2024-05-01T10:00:00Z" (JBool false) 2.

Definition house : world :=
  mkWorld
    [ mkRow 1 "2024-05-01T08:00:00Z" (jsInt 21) 1;
      mkRow 2 "2024-05-03T08:00:00Z" (jsInt 23) 1;
      mkRow 3 "2024-05-02T08:00:00Z" (jsInt 19) 2 ]
    [ mkRow 4 "2024-05-01T09:00:00Z" (JBool true) 1; kitchenSwitch ]
    [ mkRow 7 "2024-05-01T11:00:00Z" (jsInt 40) 1;
      mkRow 8 "2024-05-01T12:00:00Z" (jsInt 10) 2 ]
    [].

(** The kitchen switch, switched on: the record a caller hands to update. *)
Definition kitchenOn : row := mkRow 5 "2024-05-04T07:30:00Z" (JBool true) 2.

(** The same house when the store fails on the next statement. *)
Definition lockedHouse : world :=
  setFaults [Some "Error: SQLITE_BUSY: database is locked"] house.

(** A house without a single row. *)
Definition emptyHouse : world := mkWorld [] [] [] [].

(** The light of user 2, dimmed: the record a caller hands to update. *)
Definition hallDimmed : row := mkRow 8 "2024-05-04T07:30:00Z" (jsInt 3) 2.

(** POST /api/temperatures: the record the route builds for 20 degrees. *)
Definition twentyDegrees : draft := mkDraft "2024-05-04T07:30:00Z" (jsInt 20) 1.

Definition morning : context := mkContext None "2024-05-04T07:30:00Z".

(** PUT /api/switches/5 with body [{id: 5, user: 2, value: true}]. *)
Definition putKitchen : request := mkRequest "5" (jsInt 5) (jsInt 2) (JBool true).

(** PUT /api/switches/5 with body [{id: 7, user: 1, value: true}]. *)
Definition putMismatch : request := mkRequest "5" (jsInt 7) (jsInt 1) (JBool true).

(** The house when the store fails on the second, or on the third,
    statement to come. *)
Definition lockedAtSecond : world :=
  setFaults [None; Some "Error: SQLITE_BUSY: database is locked"] house.

Definition lockedAtThird : world :=
  setFaults [None; None; Some "Error: SQLITE_BUSY: database is locked"] house.

(** DELETE /api/temperatures/3: temperature 3 belongs to user 2. *)
Definition pathThree : request := mkRequest "3" JUndefined JUndefined JUndefined.

(** A request on the path id 4 with no body. *)
Definition pathFour : request := mkRequest "4" JUndefined JUndefined JUndefined.

(** POST /api/temperatures with body [{value: 20}], and with
    [{value: 'warm'}]. *)
Definition postTwenty : request := mkRequest "" JUndefined JUndefined (jsInt 20).

Definition postWarm : request := mkRequest "" JUndefined JUndefined (JStr "warm").

(** PUT /api/switches/5 with body [{id: 5, user: 1, value: true}]: user 1
    has no switch 5. *)
Definition putUnknown : request := mkRequest "5" (jsInt 5) (jsInt 1) (JBool true).

Section Backend.

(** The integer, if any, that the store's comparison makes of a bound
    parameter that is not a JavaScript integer (digits in a string, say).
    It depends on the driver and on the declared column types, which the
    repository does not fix. *)
Variable coerce : jsval -> option Z.

Definition sqlInt (p : jsval) : option Z :=
  match p with
  | JNum (NInt z) => Some z
  | _ => coerce p
  end.

(** [column = ?] for an integer column and a bound parameter. *)
Definition colEq (c : Z) (p : jsval) : bool :=
  match sqlInt p with
  | Some z => Z.eqb c z
  | None => false
  end.

(** [WHERE user=?] *)
Definition whereUser (user : jsval) (r : row) : bool :=
  colEq (row_user r) user.

(** [WHERE id=? and user=?] *)
Definition whereIdUser (id user : jsval) (r : row) : bool :=
  colEq (row_id r) id && colEq (row_user r) user.

(** [db.all(sql, params, cb)] for a SELECT. *)
Definition dbAll (t : tableName) (where_ : row -> bool) : Promise (list row) :=
  statement t (fun rs => (filter where_ rs, rs)).

(** [db.get(sql, params, cb)] for a SELECT: the first row or undefined. *)
Definition dbGet (t : tableName) (where_ : row -> bool) : Promise (option row) :=
  statement t (fun rs => (find where_ rs, rs)).

(** [db.get] for [SELECT ... ORDER BY date DESC LIMIT 1]. *)
Definition dbGetLatest (t : tableName) (where_ : row -> bool) : Promise (option row) :=
  statement t (fun rs => (hd_error (orderByDateDesc (filter where_ rs)), rs)).

(** [db.run] for [INSERT INTO t (date, value, user) VALUES(?, ?, ?)];
    gives [this.lastID]. *)
Definition dbInsert (t : tableName) (date : string) (value : jsval) (user : Z)
  : Promise Z :=
  statement t (fun rs =>
    let i := assignedId rs in (i, rs ++ [mkRow i date value user])).

Definition setDateValue (date : string) (value : jsval) (r : row) : row :=
  mkRow (row_id r) date value (row_user r).

(** The rows after [UPDATE t SET date = ?, value = ? WHERE ...]. *)
Definition updated (date : string) (value : jsval) (where_ : row -> bool)
    (rs : list row) : list row :=
  map (fun r => if where_ r then setDateValue date value r else r) rs.

(** [db.run] for that UPDATE. *)
Definition dbUpdate (t : tableName) (date : string) (value : jsval)
    (where_ : row -> bool) : Promise unit :=
  statement t (fun rs => (tt, updated date value where_ rs)).

(** [db.run] for [DELETE FROM t WHERE ...]. *)
Definition dbDelete (t : tableName) (where_ : row -> bool) : Promise unit :=
  statement t (fun rs => (tt, filter (fun r => negb (where_ r)) rs)).

(** ** The data-access objects

    The three modules are the same text up to the table and the messages;
    the shared bodies are written once and instantiated under the names of
    the source. *)

Definition listRows (t : tableName) (user : jsval) : Promise (list listed) :=
  rows <- dbAll t (whereUser user) ;;
  resolve (map withDayjs rows).

Definition getRow (t : tableName) (notFound : string) (user id : jsval)
  : Promise lookup :=
  row <- dbGet t (whereIdUser id user) ;;
  match row with
  | None => resolve (NotFound notFound)
  | Some r => resolve (Found r)
  end.

Definition createRow (t : tableName) (notFound : string) (s : draft)
  : Promise lookup :=
  lastID <- dbInsert t (draft_date s) (draft_value s) (draft_user s) ;;
  getRow t notFound (jsInt (draft_user s)) (jsInt lastID).

Definition updateRow (t : tableName) (notFound : string) (user id : jsval)
    (s : row) : Promise lookup :=
  _ <- dbUpdate t (row_date s) (row_value s) (whereIdUser id user) ;;
  getRow t notFound (jsInt (row_user s)) id.

Definition deleteRow (t : tableName) (user id : jsval) : Promise unit :=
  _ <- dbDelete t (whereIdUser id user) ;;
  resolve tt.

(** dao-switches *)
Definition switchNotFound : string := "Switch not found.".
Definition listSwitches : jsval -> Promise (list listed) := listRows Switches.
Definition getSwitch : jsval -> jsval -> Promise lookup := getRow Switches switchNotFound.
Definition createSwitch : draft -> Promise lookup := createRow Switches switchNotFound.
Definition updateSwitch : jsval -> jsval -> row -> Promise lookup :=
  updateRow Switches switchNotFound.
Definition deleteSwitch : jsval -> jsval -> Promise unit := deleteRow Switches.

(** dao-lights *)
Definition lightNotFound : string := "Light not found.".
Definition listLights : jsval -> Promise (list listed) := listRows Lights.
Definition getLight : jsval -> jsval -> Promise lookup := getRow Lights lightNotFound.
Definition createLight : draft -> Promise lookup := createRow Lights lightNotFound.
Definition updateLight : jsval -> jsval -> row -> Promise lookup :=
  updateRow Lights lightNotFound.
Definition deleteLight : jsval -> jsval -> Promise unit := deleteRow Lights.

(** dao-temperatures *)
Definition temperatureNotFound : string := "Temperature not found.".
Definition noTemperature : string := "There is no temperature for this sensor!".
Definition listTemperatures : jsval -> Promise (list listed) := listRows Temperatures.
Definition getTemperature : jsval -> jsval -> Promise lookup :=
  getRow Temperatures temperatureNotFound.
Definition getLastTemperature (user : jsval) : Promise lookup :=
  row <- dbGetLatest Temperatures (whereUser user) ;;
  match row with
  | None => resolve (NotFound noTemperature)
  | Some r => resolve (Found r)
  end.
Definition createTemperature : draft -> Promise lookup :=
  createRow Temperatures temperatureNotFound.
Definition deleteTemperature : jsval -> jsval -> Promise unit := deleteRow Temperatures.

(** The contract of the store by family: the operations every module has. *)
Definition notFoundOf (t : tableName) : string :=
  match t with
  | Temperatures => temperatureNotFound
  | Switches => switchNotFound
  | Lights => lightNotFound
  end.

Definition listOf (t : tableName) : jsval -> Promise (list listed) :=
  match t with
  | Temperatures => listTemperatures
  | Switches => listSwitches
  | Lights => listLights
  end.

Definition getOf (t : tableName) : jsval -> jsval -> Promise lookup :=
  match t with
  | Temperatures => getTemperature
  | Switches => getSwitch
  | Lights => getLight
  end.

Definition createOf (t : tableName) : draft -> Promise lookup :=
  match t with
  | Temperatures => createTemperature
  | Switches => createSwitch
  | Lights => createLight
  end.

Definition deleteOf (t : tableName) : jsval -> jsval -> Promise unit :=
  match t with
  | Temperatures => deleteTemperature
  | Switches => deleteSwitch
  | Lights => deleteLight
  end.

(** [validationResult(req)] after the chains of a route have run. *)
Variable validationResult : list chain -> request -> list verror.

(** [Number(s)] on a string. *)
Variable Number : string -> jsnum.

(** [userDao.getUser]: the user with these credentials, or a falsy value. *)
Variable getUser : string -> string -> option user.

Definition errorFormatter (e : verror) : string :=
  (location e ++ "[" ++ param e ++ "]: " ++ msg e)%string.

(** [errors.array().join(", ")] *)
Definition joinedErrors (errors : list verror) : string :=
  String.concat ", " (map errorFormatter errors).

Definition notAuthorized : response := mkResponse 401 (JsonError "Not authorized").

(** The middleware [isLoggedIn]: [None] stands for [next()]. *)
Definition isLoggedIn (ctx : context) : option response :=
  match session ctx with
  | Some _ => None
  | None => Some notAuthorized
  end.

(** *** Users APIs *)

Definition incorrectLogin : string := "Incorrect username or password".

(** What the verify function hands to its callback:
    [cb(null, false, message)] or [cb(null, user)]. *)
Inductive verified : Type :=
| Refused (info : string)
| Verified (u : user).

Definition verify (username password : string) : verified :=
  match getUser username password with
  | None => Refused incorrectLogin
  | Some u => Verified u
  end.

(** The reason of a refusal as the callback of the route gets it: the
    text [verify] handed over, or an object [{ message: ... }] of the
    strategy's own. *)
Inductive challenge : Type :=
| ChallengeText (info : string)
| ChallengeObject (message : string).

Inductive attempt : Type :=
| Failed (info : challenge)
| Succeeded (u : user).

(** The local strategy of passport, as [new LocalStrategy(verify)] sets
    it up. [username] and [password] are what it reads in the body of
    the request, the empty string when the field is absent. A request
    without a username or without a password is refused with
    [{ message: 'Missing credentials' }] and [verify] is not called;
    otherwise the outcome is that of [verify]. *)
Definition localStrategy (username password : string) : attempt :=
  if ((username =? "") || (password =? ""))%string
  then Failed (ChallengeObject "Missing credentials")
  else
    match verify username password with
    | Refused info => Failed (ChallengeText info)
    | Verified u => Succeeded u
    end.

Definition jsonOfChallenge (info : challenge) : json :=
  match info with
  | ChallengeText e => JsonError e
  | ChallengeObject m => JsonErrorMessage m
  end.

(** The end of a login request: a response and the user now in the
    session, or the error handed to [next]. *)
Inductive loginEnd : Type :=
| LoginSent (r : response) (sessionUser : option user)
| LoginNext (err : string).

(** POST /api/sessions: the strategy runs and hands its outcome to the
    callback of the route; a refusal is answered 401 with
    [{ error: info }]. [loginError] is what [req.login] reports when it
    cannot establish the session. *)
Definition postSessions (ctx : context) (loginError : option string)
    (username password : string) : loginEnd :=
  match localStrategy username password with
  | Failed info => LoginSent (mkResponse 401 (jsonOfChallenge info)) (session ctx)
  | Succeeded u =>
      match loginError with
      | Some err => LoginNext err
      | None => LoginSent (mkResponse 200 (JsonUser u)) (Some u)
      end
  end.

(** GET /api/sessions/current *)
Definition getSessionsCurrent (ctx : context) : response :=
  match session ctx with
  | Some u => mkResponse 200 (JsonUser u)
  | None => mkResponse 401 (JsonError "Not authenticated")
  end.

(** DELETE /api/sessions/current *)
Definition deleteSessionsCurrent (ctx : context) : response * option user :=
  (mkResponse 200 JsonEmpty, None).

(** *** Temperatures APIs *)

(** GET /api/temperatures *)
Definition getTemperatures (ctx : context) (req : request) (w : world) : handled :=
  let call := [mkCall OpList Temperatures (jsInt 1)] in
  match listTemperatures (jsInt 1) w with
  | (Resolved temperatures, w') => mkHandled (mkResponse 200 (JsonRows temperatures)) w' call
  | (Rejected err, w') => mkHandled (mkResponse 500 (JsonDbError err)) w' call
  end.

(** The shared end of the routes that read one record:
    404 when the result carries [error] (the messages are not empty, so
    [result.error] is truthy exactly on the not-found object), the record
    otherwise, 500 with no body when the store fails. *)
Definition sendLookup (p : outcome lookup * world) (call : list daoCall) : handled :=
  match p with
  | (Resolved (NotFound e), w') => mkHandled (mkResponse 404 (JsonError e)) w' call
  | (Resolved (Found r), w') => mkHandled (mkResponse 200 (JsonRow r)) w' call
  | (Rejected _, w') => mkHandled (mkResponse 500 NoBody) w' call
  end.

(** GET /api/temperatures/last *)
Definition getTemperaturesLast (ctx : context) (req : request) (w : world) : handled :=
  sendLookup (getLastTemperature (jsInt 1) w) [mkCall OpGetLast Temperatures (jsInt 1)].

(** GET /api/temperatures/<id> *)
Definition getTemperaturesId (ctx : context) (req : request) (w : world) : handled :=
  sendLookup (getTemperature (jsInt 1) (JStr (params_id req)) w)
             [mkCall OpGet Temperatures (jsInt 1)].

(** POST /api/temperatures *)
Definition postTemperatures (ctx : context) (req : request) (w : world) : handled :=
  match validationResult [check ["value"] isFloat] req with
  | (_ :: _) as errors => mkHandled (mkResponse 422 (JsonError (joinedErrors errors))) w []
  | [] =>
      let temperature := mkDraft (now ctx) (body_value req) 1 in
      let call := [mkCall OpCreate Temperatures (jsInt (draft_user temperature))] in
      match createTemperature temperature w with
      | (Resolved result, w') => mkHandled (mkResponse 200 (jsonOfLookup result)) w' call
      | (Rejected err, w') =>
          mkHandled (mkResponse 503 (JsonError
            ("Database error during the creation of new temperature: " ++ err)%string))
            w' call
      end
  end.

(** DELETE /api/temperatures/<id> *)
Definition deleteTemperaturesId (ctx : context) (req : request) (w : world) : handled :=
  let call := [mkCall OpDelete Temperatures (jsInt 1)] in
  match deleteTemperature (jsInt 1) (JStr (params_id req)) w with
  | (Resolved _, w') => mkHandled (mkResponse 200 JsonEmpty) w' call
  | (Rejected err, w') =>
      mkHandled (mkResponse 503 (JsonError
        ("Database error during the deletion of temperature " ++ params_id req
           ++ ": " ++ err ++ " ")%string))
        w' call
  end.

(** *** Switches and lights *)

(** GET /api/switches/<id> *)
Definition getSwitchesId (ctx : context) (req : request) (w : world) : handled :=
  sendLookup (getSwitch (jsInt 1) (JStr (params_id req)) w)
             [mkCall OpGet Switches (jsInt 1)].

(** GET /api/lights/<id> *)
Definition getLightsId (ctx : context) (req : request) (w : world) : handled :=
  sendLookup (getLight (jsInt 1) (JStr (params_id req)) w)
             [mkCall OpGet Lights (jsInt 1)].

Definition idMismatch : string := "URL and body id mismatch".

(** The body shared by the two PUT routes, which differ in the chain on
    [value], the DAO and the word in the 503 message. The record read
    first gets the clock and the body's value, and is handed to the
    update together with its own id. *)
Definition putRecord (t : tableName) (valueRule : rule) (word : string)
    (get : jsval -> jsval -> Promise lookup)
    (update : jsval -> jsval -> row -> Promise lookup)
    (ctx : context) (req : request) (w : world) : handled :=
  let failure :=
    mkResponse 503 (JsonError
      ("Database error during the update of " ++ word ++ " " ++ params_id req)%string) in
  match validationResult [check ["id"] isInt; check ["value"] valueRule] req with
  | (_ :: _) as errors => mkHandled (mkResponse 422 (JsonError (joinedErrors errors))) w []
  | [] =>
      if strictNeqNum (body_id req) (Number (params_id req))
      then mkHandled (mkResponse 422 (JsonError idMismatch)) w []
      else
        let read := [mkCall OpGet t (body_user req)] in
        match get (body_user req) (body_id req) w with
        | (Rejected _, w1) => mkHandled failure w1 read
        | (Resolved (NotFound e), w1) => mkHandled (mkResponse 404 (JsonError e)) w1 read
        | (Resolved (Found r), w1) =>
            let s := setDateValue (now ctx) (body_value req) r in
            let both := read ++ [mkCall OpUpdate t (body_user req)] in
            match update (body_user req) (jsInt (row_id s)) s w1 with
            | (Resolved result, w2) => mkHandled (mkResponse 200 (jsonOfLookup result)) w2 both
            | (Rejected _, w2) => mkHandled failure w2 both
            end
        end
  end.

(** PUT /api/switches/<id> *)
Definition putSwitchesId : context -> request -> world -> handled :=
  putRecord Switches isBoolean "switch" getSwitch updateSwitch.

(** PUT /api/lights/<id> *)
Definition putLightsId : context -> request -> world -> handled :=
  putRecord Lights isInt "light" getLight updateLight.

(** The resource routes of the server. *)
Inductive route : Type :=
| GET_temperatures
| GET_temperatures_last
| GET_temperatures_id
| POST_temperatures
| DELETE_temperatures_id
| GET_switches_id
| PUT_switches_id
| GET_lights_id
| PUT_lights_id.

Definition handle (rt : route) : context -> request -> world -> handled :=
  match rt with
  | GET_temperatures => getTemperatures
  | GET_temperatures_last => getTemperaturesLast
  | GET_temperatures_id => getTemperaturesId
  | POST_temperatures => postTemperatures
  | DELETE_temperatures_id => deleteTemperaturesId
  | GET_switches_id => getSwitchesId
  | PUT_switches_id => putSwitchesId
  | GET_lights_id => getLightsId
  | PUT_lights_id => putLightsId
  end.

Definition isPut (rt : route) : bool :=
  match rt with
  | PUT_switches_id | PUT_lights_id => true
  | _ => false
  end.

(** The table a route works on. *)
Definition familyOf (rt : route) : tableName :=
  match rt with
  | GET_temperatures | GET_temperatures_last | GET_temperatures_id
  | POST_temperatures | DELETE_temperatures_id => Temperatures
  | GET_switches_id | PUT_switches_id => Switches
  | GET_lights_id | PUT_lights_id => Lights
  end.

Definition isGet (rt : route) : bool :=
  match rt with
  | GET_temperatures | GET_temperatures_last | GET_temperatures_id
  | GET_switches_id | GET_lights_id => true
  | _ => false
  end.

(** The route that reads one record of a family by its id. *)
Definition getByIdOf (t : tableName) : context -> request -> world -> handled :=
  match t with
  | Temperatures => getTemperaturesId
  | Switches => getSwitchesId
  | Lights => getLightsId
  end.

(** ** The routes on behalf of a user

    Following the spec: in the deployment "a fixed user identity is
    substituted" for the requesting user "passed to the store operation".
    [onBehalfOf u rt] is the route [rt] with the store asked for the
    user [u], the way the lines that the source keeps in comments pass
    [req.user.id]; everything but the user is as in the routes above,
    with which it is compared below. *)
Definition putRecordFor (user : jsval) (t : tableName) (valueRule : rule) (word : string)
    (get : jsval -> jsval -> Promise lookup)
    (update : jsval -> jsval -> row -> Promise lookup)
    (ctx : context) (req : request) (w : world) : handled :=
  let failure :=
    mkResponse 503 (JsonError
      ("Database error during the update of " ++ word ++ " " ++ params_id req)%string) in
  match validationResult [check ["id"] isInt; check ["value"] valueRule] req with
  | (_ :: _) as errors => mkHandled (mkResponse 422 (JsonError (joinedErrors errors))) w []
  | [] =>
      if strictNeqNum (body_id req) (Number (params_id req))
      then mkHandled (mkResponse 422 (JsonError idMismatch)) w []
      else
        let read := [mkCall OpGet t user] in
        match get user (body_id req) w with
        | (Rejected _, w1) => mkHandled failure w1 read
        | (Resolved (NotFound e), w1) => mkHandled (mkResponse 404 (JsonError e)) w1 read
        | (Resolved (Found r), w1) =>
            let s := setDateValue (now ctx) (body_value req) r in
            let both := read ++ [mkCall OpUpdate t user] in
            match update user (jsInt (row_id s)) s w1 with
            | (Resolved result, w2) => mkHandled (mkResponse 200 (jsonOfLookup result)) w2 both
            | (Rejected _, w2) => mkHandled failure w2 both
            end
        end
  end.

Definition onBehalfOf (u : Z) (rt : route) (ctx : context) (req : request) (w : world)
  : handled :=
  let user := jsInt u in
  match rt with
  | GET_temperatures =>
      match listTemperatures user w with
      | (Resolved temperatures, w') =>
          mkHandled (mkResponse 200 (JsonRows temperatures)) w'
            [mkCall OpList Temperatures user]
      | (Rejected err, w') =>
          mkHandled (mkResponse 500 (JsonDbError err)) w' [mkCall OpList Temperatures user]
      end
  | GET_temperatures_last =>
      sendLookup (getLastTemperature user w) [mkCall OpGetLast Temperatures user]
  | GET_temperatures_id =>
      sendLookup (getTemperature user (JStr (params_id req)) w)
        [mkCall OpGet Temperatures user]
  | POST_temperatures =>
      match validationResult [check ["value"] isFloat] req with
      | (_ :: _) as errors =>
          mkHandled (mkResponse 422 (JsonError (joinedErrors errors))) w []
      | [] =>
          match createTemperature (mkDraft (now ctx) (body_value req) u) w with
          | (Resolved result, w') =>
              mkHandled (mkResponse 200 (jsonOfLookup result)) w'
                [mkCall OpCreate Temperatures user]
          | (Rejected err, w') =>
              mkHandled (mkResponse 503 (JsonError
                ("Database error during the creation of new temperature: " ++ err)%string))
                w' [mkCall OpCreate Temperatures user]
          end
      end
  | DELETE_temperatures_id =>
      match deleteTemperature user (JStr (params_id req)) w with
      | (Resolved _, w') =>
          mkHandled (mkResponse 200 JsonEmpty) w' [mkCall OpDelete Temperatures user]
      | (Rejected err, w') =>
          mkHandled (mkResponse 503 (JsonError
            ("Database error during the deletion of temperature " ++ params_id req
               ++ ": " ++ err ++ " ")%string))
            w' [mkCall OpDelete Temperatures user]
      end
  | GET_switches_id =>
      sendLookup (getSwitch user (JStr (params_id req)) w) [mkCall OpGet Switches user]
  | PUT_switches_id =>
      putRecordFor user Switches isBoolean "switch" getSwitch updateSwitch ctx req w
  | GET_lights_id =>
      sendLookup (getLight user (JStr (params_id req)) w) [mkCall OpGet Lights user]
  | PUT_lights_id =>
      putRecordFor user Lights isInt "light" getLight updateLight ctx req w
  end.

(** * Properties *)

(** ** The store and the promises *)

Lemma rowsOf_setRows (t : tableName) (rs : list row) (w : world) :
  rowsOf t (setRows t rs w) = rs.
Proof. destruct t; reflexivity. Qed.

Lemma rowsOf_setRows_other (t t' : tableName) (rs : list row) (w : world) :
  t <> t' -> rowsOf t' (setRows t rs w) = rowsOf t' w.
Proof. destruct t, t'; intros H; try reflexivity; now elim H. Qed.

Lemma rowsOf_advance (t : tableName) (w : world) : rowsOf t (advance w) = rowsOf t w.
Proof. destruct t; reflexivity. Qed.

Lemma setRows_same (t : tableName) (w : world) :
  setRows t (rowsOf t w) (advance w) = advance w.
Proof. destruct t; reflexivity. Qed.

Lemma faults_setRows (t : tableName) (rs : list row) (w : world) :
  faults (setRows t rs w) = faults w.
Proof. destruct t; reflexivity. Qed.

Lemma faults_advance (w : world) : faults (advance w) = tl (faults w).
Proof. reflexivity. Qed.

Lemma quiet_S (n : nat) (fs : list (option dberr)) :
  quiet (S n) fs = true -> hd None fs = None /\ quiet n (tl fs) = true.
Proof.
  simpl. destruct (hd None fs); [discriminate | auto].
Qed.

Lemma statement_resolves {A : Type} (t : tableName)
    (exec : list row -> A * list row) (w : world) :
  hd None (faults w) = None ->
  statement t exec w =
    (Resolved (fst (exec (rowsOf t w))), setRows t (snd (exec (rowsOf t w))) (advance w)).
Proof.
  intros H. unfold statement. rewrite H. now destruct (exec (rowsOf t w)).
Qed.

Lemma statement_rejects {A : Type} (t : tableName)
    (exec : list row -> A * list row) (w : world) (e : dberr) :
  hd None (faults w) = Some e ->
  statement t exec w = (Rejected e, advance w).
Proof. intros H. unfold statement. now rewrite H. Qed.

(** Whatever a statement does, it touches no table but its own. *)
Lemma statement_other_tables {A : Type} (t t' : tableName)
    (exec : list row -> A * list row) (w : world) :
  t <> t' -> rowsOf t' (snd (statement t exec w)) = rowsOf t' w.
Proof.
  intros H. unfold statement.
  destruct (hd None (faults w)); simpl.
  - apply rowsOf_advance.
  - destruct (exec (rowsOf t w)); simpl.
    now rewrite rowsOf_setRows_other, rowsOf_advance.
Qed.

Lemma sqlInt_jsInt (z : Z) : sqlInt (jsInt z) = Some z.
Proof. reflexivity. Qed.

Lemma colEq_jsInt (c z : Z) : colEq c (jsInt z) = (c =? z).
Proof. reflexivity. Qed.

Lemma colEq_true (c : Z) (p : jsval) : colEq c p = true <-> sqlInt p = Some c.
Proof.
  unfold colEq. destruct (sqlInt p) as [z|].
  - rewrite Z.eqb_eq. split; [now intros -> | now intros [= ->]].
  - split; discriminate.
Qed.

(** ** get *)

Lemma getRow_resolves (t : tableName) (notFound : string) (user id : jsval) (w : world) :
  hd None (faults w) = None ->
  getRow t notFound user id w =
    (Resolved (lookupOf notFound (find (whereIdUser id user) (rowsOf t w))), advance w).
Proof.
  intros H. unfold getRow, andThen, dbGet.
  rewrite statement_resolves by assumption. simpl.
  rewrite setRows_same.
  now destruct (find (whereIdUser id user) (rowsOf t w)).
Qed.

Lemma getRow_rejects (t : tableName) (notFound : string) (user id : jsval)
    (w : world) (e : dberr) :
  hd None (faults w) = Some e ->
  getRow t notFound user id w = (Rejected e, advance w).
Proof.
  intros H. unfold getRow, andThen, dbGet.
  now rewrite (statement_rejects _ _ _ e).
Qed.

(** A get never changes a table. *)
Lemma getRow_rows (t t' : tableName) (notFound : string) (user id : jsval) (w : world) :
  rowsOf t' (snd (getRow t notFound user id w)) = rowsOf t' w.
Proof.
  destruct (hd None (faults w)) as [e|] eqn:H.
  - rewrite (getRow_rejects _ _ _ _ _ e) by assumption. apply rowsOf_advance.
  - rewrite getRow_resolves by assumption. apply rowsOf_advance.
Qed.

(** A get resolves with a row of the table that has the id and the user
    asked for. *)
Lemma getRow_scoped (t : tableName) (notFound : string) (user id : jsval)
    (w : world) (r : row) :
  fst (getRow t notFound user id w) = Resolved (Found r) ->
  In r (rowsOf t w) /\ sqlInt id = Some (row_id r) /\ sqlInt user = Some (row_user r).
Proof.
  destruct (hd None (faults w)) as [e|] eqn:H.
  - rewrite (getRow_rejects _ _ _ _ _ e) by assumption. discriminate.
  - rewrite getRow_resolves by assumption. simpl.
    destruct (find (whereIdUser id user) (rowsOf t w)) as [x|] eqn:F; [|discriminate].
    intros [= ->]. apply find_some in F. destruct F as [Hin Hw].
    unfold whereIdUser in Hw. apply andb_prop in Hw. destruct Hw as [Hi Hu].
    now rewrite colEq_true in Hi, Hu.
Qed.

Lemma find_none_iff (f : row -> bool) (rs : list row) :
  find f rs = None <-> forall r, In r rs -> f r = false.
Proof.
  split.
  - intros H r Hin. now apply find_none with (l := rs).
  - induction rs as [|x rs IH]; intros H; [reflexivity|]. simpl.
    rewrite (H x (or_introl eq_refl)). apply IH. intros r Hin. apply H. now right.
Qed.

(** With distinct ids in the table, the row of one user is not found for
    another. *)
Lemma getRow_isolation (t : tableName) (notFound : string) (u2 : jsval)
    (w : world) (r : row) :
  distinctIds (rowsOf t w) ->
  In r (rowsOf t w) ->
  sqlInt u2 <> Some (row_user r) ->
  hd None (faults w) = None ->
  fst (getRow t notFound u2 (jsInt (row_id r)) w) = Resolved (NotFound notFound).
Proof.
  unfold distinctIds. intros Hnd Hin Hne Hq.
  rewrite getRow_resolves by assumption. simpl.
  replace (find _ _) with (@None row); [reflexivity|].
  symmetry. apply find_none_iff. intros x Hx. unfold whereIdUser.
  destruct (colEq (row_id x) (jsInt (row_id r))) eqn:Hi; [|reflexivity]. simpl.
  rewrite colEq_jsInt in Hi. apply Z.eqb_eq in Hi.
  assert (x = r) as ->.
  { clear - Hnd Hin Hx Hi. induction (rowsOf t w) as [|y l IH]; [easy|].
    simpl in Hnd. inversion Hnd as [|? ? Hnot Hnd']; subst.
    destruct Hx as [->|Hx], Hin as [->|Hin]; auto.
    - elim Hnot. rewrite Hi. now apply in_map.
    - elim Hnot. rewrite <- Hi. now apply in_map. }
  destruct (colEq (row_user r) u2) eqn:Hu; [|reflexivity].
  apply colEq_true in Hu. contradiction.
Qed.

(** ** update *)

Lemma updateRow_resolves (t : tableName) (notFound : string) (user id : jsval)
    (s : row) (w : world) :
  hd None (faults w) = None ->
  updateRow t notFound user id s w =
    getRow t notFound (jsInt (row_user s)) id
      (setRows t (updated (row_date s) (row_value s) (whereIdUser id user) (rowsOf t w))
         (advance w)).
Proof.
  intros H. unfold updateRow, andThen, dbUpdate.
  now rewrite statement_resolves by assumption.
Qed.

Lemma updated_unmatched (date : string) (value : jsval) (where_ : row -> bool)
    (rs : list row) :
  (forall r, In r rs -> where_ r = false) -> updated date value where_ rs = rs.
Proof.
  intros H. unfold updated. rewrite <- (map_id rs) at 2.
  apply map_ext_in. intros r Hin. now rewrite (H r Hin).
Qed.

Lemma updateRow_unmatched (t : tableName) (notFound : string) (user id : jsval)
    (s : row) (w : world) :
  hd None (faults w) = None ->
  (forall r, In r (rowsOf t w) -> whereIdUser id user r = false) ->
  updateRow t notFound user id s w =
    getRow t notFound (jsInt (row_user s)) id (advance w).
Proof.
  intros Hq Hno. rewrite updateRow_resolves by assumption.
  now rewrite updated_unmatched, setRows_same.
Qed.

(** C3. An update whose id and user match no row is not reported as
    not found by the write: provided the statement itself does not fail,
    the call is the read-back alone, on tables that have not changed, and
    resolves with whatever that get finds. Stated for updateSwitch and
    updateLight. *)
Theorem update_unmatched_resolves_with_get (user id : jsval) (s : row) (w : world) :
  hd None (faults w) = None ->
  ((forall r, In r (switches w) -> whereIdUser id user r = false) ->
     updateSwitch user id s w = getSwitch (jsInt (row_user s)) id (advance w)) /\
  ((forall r, In r (lights w) -> whereIdUser id user r = false) ->
     updateLight user id s w = getLight (jsInt (row_user s)) id (advance w)).
Proof.
  intros Hq. split; intros Hno.
  - now apply (updateRow_unmatched Switches).
  - now apply (updateRow_unmatched Lights).
Qed.

Lemma updated_nth (date : string) (value : jsval) (where_ : row -> bool)
    (rs : list row) (n : nat) (x : row) :
  nth_error rs n = Some x ->
  nth_error (updated date value where_ rs) n =
    Some (if where_ x then setDateValue date value x else x).
Proof.
  intros H. unfold updated. now rewrite nth_error_map, H.
Qed.

Lemma updateRow_frame (t : tableName) (notFound : string) (user id : jsval)
    (s : row) (w : world) :
  hd None (faults w) = None ->
  let w' := snd (updateRow t notFound user id s w) in
  rowsOf t w' = updated (row_date s) (row_value s) (whereIdUser id user) (rowsOf t w) /\
  forall t', t <> t' -> rowsOf t' w' = rowsOf t' w.
Proof.
  intros Hq w'. subst w'. rewrite updateRow_resolves by assumption. split.
  - now rewrite getRow_rows, rowsOf_setRows.
  - intros t' Hne. now rewrite getRow_rows, rowsOf_setRows_other, rowsOf_advance.
Qed.

Lemma updated_rows (date : string) (value : jsval) (where_ : row -> bool)
    (rs : list row) :
  List.length (updated date value where_ rs) = List.length rs /\
  forall n x, nth_error rs n = Some x ->
    exists x', nth_error (updated date value where_ rs) n = Some x' /\
      row_id x' = row_id x /\ row_user x' = row_user x /\
      (if where_ x then row_date x' = date /\ row_value x' = value else x' = x).
Proof.
  split; [apply length_map|].
  intros n x Hx. exists (if where_ x then setDateValue date value x else x).
  split; [now apply updated_nth|].
  destruct (where_ x); simpl; auto.
Qed.

(** C4. An update applied to an existing row with that id and user, when
    the statement does not fail: the table keeps its length and order;
    every row keeps its id and its user; a row that has the id and the
    user gets the date and the value of the record; every other row, and
    every other table, is as before. Stated for updateSwitch and
    updateLight. *)
Theorem update_changes_date_and_value_only (user id : jsval) (s : row) (w : world) :
  hd None (faults w) = None ->
  (forall r, In r (switches w) -> whereIdUser id user r = true ->
     let w' := snd (updateSwitch user id s w) in
     List.length (switches w') = List.length (switches w) /\
     (forall n x, nth_error (switches w) n = Some x ->
        exists x', nth_error (switches w') n = Some x' /\
          row_id x' = row_id x /\ row_user x' = row_user x /\
          (if whereIdUser id user x
           then row_date x' = row_date s /\ row_value x' = row_value s
           else x' = x)) /\
     temperatures w' = temperatures w /\ lights w' = lights w) /\
  (forall r, In r (lights w) -> whereIdUser id user r = true ->
     let w' := snd (updateLight user id s w) in
     List.length (lights w') = List.length (lights w) /\
     (forall n x, nth_error (lights w) n = Some x ->
        exists x', nth_error (lights w') n = Some x' /\
          row_id x' = row_id x /\ row_user x' = row_user x /\
          (if whereIdUser id user x
           then row_date x' = row_date s /\ row_value x' = row_value s
           else x' = x)) /\
     temperatures w' = temperatures w /\ switches w' = switches w).
Proof.
  intros Hq. split; intros r _ _ w'; subst w'.
  - destruct (updateRow_frame Switches switchNotFound user id s w Hq) as [Hrows Hother].
    simpl in Hrows. unfold updateSwitch. rewrite Hrows.
    destruct (updated_rows (row_date s) (row_value s) (whereIdUser id user) (switches w))
      as [Hlen Hnth].
    repeat split; try assumption.
    + apply (Hother Temperatures). discriminate.
    + apply (Hother Lights). discriminate.
  - destruct (updateRow_frame Lights lightNotFound user id s w Hq) as [Hrows Hother].
    simpl in Hrows. unfold updateLight. rewrite Hrows.
    destruct (updated_rows (row_date s) (row_value s) (whereIdUser id user) (lights w))
      as [Hlen Hnth].
    repeat split; try assumption.
    + apply (Hother Temperatures). discriminate.
    + apply (Hother Switches). discriminate.
Qed.

Lemma updateRow_result (t : tableName) (notFound : string) (user id : jsval)
    (s : row) (w : world) :
  quiet 2 (faults w) = true ->
  fst (updateRow t notFound user id s w) =
    Resolved (lookupOf notFound
      (find (whereIdUser id (jsInt (row_user s)))
         (updated (row_date s) (row_value s) (whereIdUser id user) (rowsOf t w)))).
Proof.
  intros Hq. apply quiet_S in Hq. destruct Hq as [H1 Hq].
  apply quiet_S in Hq. destruct Hq as [H2 _].
  rewrite updateRow_resolves by assumption.
  rewrite getRow_resolves.
  - simpl. now rewrite rowsOf_setRows.
  - now rewrite faults_setRows, faults_advance.
Qed.

(** C10. In updateSwitch and updateLight the record resolved after the
    UPDATE is fetched with the user field of the record, not with the
    user argument: when neither statement fails, the rows written are
    those with the id and the user argument, and the value resolved is the
    first row with that id among those of [s.user] in the table after the
    write, or the not-found object when there is none. *)
Theorem update_reads_back_with_record_user (user id : jsval) (s : row) (w : world) :
  quiet 2 (faults w) = true ->
  (let rows' := updated (row_date s) (row_value s) (whereIdUser id user) (switches w) in
   switches (snd (updateSwitch user id s w)) = rows' /\
   fst (updateSwitch user id s w) =
     Resolved (lookupOf switchNotFound (find (whereIdUser id (jsInt (row_user s))) rows')) /\
   ((forall r, In r rows' -> whereIdUser id (jsInt (row_user s)) r = false) ->
    fst (updateSwitch user id s w) = Resolved (NotFound switchNotFound))) /\
  (let rows' := updated (row_date s) (row_value s) (whereIdUser id user) (lights w) in
   lights (snd (updateLight user id s w)) = rows' /\
   fst (updateLight user id s w) =
     Resolved (lookupOf lightNotFound (find (whereIdUser id (jsInt (row_user s))) rows')) /\
   ((forall r, In r rows' -> whereIdUser id (jsInt (row_user s)) r = false) ->
    fst (updateLight user id s w) = Resolved (NotFound lightNotFound))).
Proof.
  intros Hq.
  assert (Hq1 : hd None (faults w) = None) by now apply quiet_S in Hq.
  split; intros rows'; subst rows'.
  - split; [|split].
    + apply (updateRow_frame Switches switchNotFound user id s w Hq1).
    + now apply (updateRow_result Switches).
    + intros Hno. unfold updateSwitch. rewrite updateRow_result by assumption.
      apply find_none_iff in Hno. simpl in *. now rewrite Hno.
  - split; [|split].
    + apply (updateRow_frame Lights lightNotFound user id s w Hq1).
    + now apply (updateRow_result Lights).
    + intros Hno. unfold updateLight. rewrite updateRow_result by assumption.
      apply find_none_iff in Hno. simpl in *. now rewrite Hno.
Qed.

(** ** create *)

Lemma assignedId_above (rs : list row) (r : row) :
  In r rs -> row_id r < assignedId rs.
Proof.
  unfold assignedId. induction rs as [|x rs IH]; cbn [fold_right In]; [easy|].
  intros [->|Hin]; [lia|]. specialize (IH Hin). lia.
Qed.

Lemma assignedId_fresh (rs : list row) : ~ In (assignedId rs) (map row_id rs).
Proof.
  intros Hin. apply in_map_iff in Hin. destruct Hin as [r [Heq Hin]].
  apply assignedId_above in Hin. lia.
Qed.

Lemma find_last (f : row -> bool) (rs : list row) (x : row) :
  (forall r, In r rs -> f r = false) -> f x = true -> find f (rs ++ [x]) = Some x.
Proof.
  intros Hno Hx. induction rs as [|y rs IH]; simpl.
  - now rewrite Hx.
  - rewrite (Hno y (or_introl eq_refl)). apply IH. intros r Hin. apply Hno. now right.
Qed.

Lemma whereIdUser_own (r : row) :
  whereIdUser (jsInt (row_id r)) (jsInt (row_user r)) r = true.
Proof.
  unfold whereIdUser. now rewrite !colEq_jsInt, !Z.eqb_refl.
Qed.

Lemma find_inserted (rs : list row) (date : string) (value : jsval) (u : Z) :
  let r := mkRow (assignedId rs) date value u in
  find (whereIdUser (jsInt (row_id r)) (jsInt (row_user r))) (rs ++ [r]) = Some r.
Proof.
  intros r. apply find_last; [|apply whereIdUser_own].
  intros x Hin. unfold whereIdUser. rewrite colEq_jsInt.
  apply assignedId_above in Hin. simpl.
  replace (row_id x =? assignedId rs) with false; [reflexivity|].
  symmetry. apply Z.eqb_neq. lia.
Qed.

Lemma createRow_resolves (t : tableName) (notFound : string) (s : draft) (w : world) :
  hd None (faults w) = None ->
  let r := mkRow (assignedId (rowsOf t w)) (draft_date s) (draft_value s) (draft_user s) in
  createRow t notFound s w =
    getRow t notFound (jsInt (row_user r)) (jsInt (row_id r))
      (setRows t (rowsOf t w ++ [r]) (advance w)).
Proof.
  intros H r. unfold createRow, andThen, dbInsert.
  now rewrite statement_resolves by assumption.
Qed.

Lemma createRow_rejects (t : tableName) (notFound : string) (s : draft)
    (w : world) (e : dberr) :
  hd None (faults w) = Some e ->
  createRow t notFound s w = (Rejected e, advance w).
Proof.
  intros H. unfold createRow, andThen, dbInsert.
  now rewrite (statement_rejects _ _ _ e).
Qed.

Lemma createRow_round_trip (t : tableName) (notFound : string) (s : draft) (w : world) :
  quiet 3 (faults w) = true ->
  exists r,
    fst (createRow t notFound s w) = Resolved (Found r) /\
    row_date r = draft_date s /\ row_value r = draft_value s /\
    row_user r = draft_user s /\
    ~ In (row_id r) (map row_id (rowsOf t w)) /\
    rowsOf t (snd (createRow t notFound s w)) = rowsOf t w ++ [r] /\
    (forall t', t <> t' -> rowsOf t' (snd (createRow t notFound s w)) = rowsOf t' w) /\
    fst (getRow t notFound (jsInt (draft_user s)) (jsInt (row_id r))
           (snd (createRow t notFound s w))) = Resolved (Found r).
Proof.
  intros Hq. apply quiet_S in Hq. destruct Hq as [H1 Hq].
  apply quiet_S in Hq. destruct Hq as [H2 Hq].
  apply quiet_S in Hq. destruct Hq as [H3 _].
  set (r := mkRow (assignedId (rowsOf t w)) (draft_date s) (draft_value s) (draft_user s)).
  set (w1 := setRows t (rowsOf t w ++ [r]) (advance w)).
  assert (Hw1 : hd None (faults w1) = None).
  { unfold w1. now rewrite faults_setRows, faults_advance. }
  assert (Hfind : find (whereIdUser (jsInt (row_id r)) (jsInt (row_user r))) (rowsOf t w1)
                  = Some r).
  { unfold w1. rewrite rowsOf_setRows. apply find_inserted. }
  assert (Hrun : createRow t notFound s w = (Resolved (Found r), advance w1)).
  { rewrite createRow_resolves by assumption. fold r. fold w1.
    rewrite getRow_resolves by assumption. now rewrite Hfind. }
  exists r. rewrite Hrun. simpl.
  repeat split.
  - apply assignedId_fresh.
  - unfold w1. now rewrite rowsOf_advance, rowsOf_setRows.
  - intros t' Hne. unfold w1.
    now rewrite rowsOf_advance, rowsOf_setRows_other, rowsOf_advance.
  - rewrite getRow_resolves.
    + rewrite rowsOf_advance. change (draft_user s) with (row_user r).
      change (assignedId (rowsOf t w)) with (row_id r). now rewrite Hfind.
    + rewrite faults_advance. unfold w1.
      now rewrite faults_setRows, faults_advance.
Qed.

(** C5. Create round trip, for the three families. When the insert, the
    read-back and a later get do not fail, create resolves with a record
    that carries the date, the value and the user of the one given and an
    id that no row of the table had; that record is the row appended to
    the table, and get with its user and id resolves with it again. When
    the insert fails, create rejects with the error of the store and no
    table changes. *)
Theorem create_round_trip (t : tableName) (s : draft) (w : world) :
  (quiet 3 (faults w) = true ->
   exists r,
     fst (createOf t s w) = Resolved (Found r) /\
     row_date r = draft_date s /\ row_value r = draft_value s /\
     row_user r = draft_user s /\
     ~ In (row_id r) (map row_id (rowsOf t w)) /\
     rowsOf t (snd (createOf t s w)) = rowsOf t w ++ [r] /\
     (forall t', t <> t' -> rowsOf t' (snd (createOf t s w)) = rowsOf t' w) /\
     fst (getOf t (jsInt (draft_user s)) (jsInt (row_id r)) (snd (createOf t s w)))
       = Resolved (Found r)) /\
  (forall e, hd None (faults w) = Some e ->
     fst (createOf t s w) = Rejected e /\
     forall t', rowsOf t' (snd (createOf t s w)) = rowsOf t' w).
Proof.
  split.
  - intros Hq. destruct t; now apply createRow_round_trip.
  - intros e He.
    assert (H : createOf t s w = (Rejected e, advance w))
      by (destruct t; now apply createRow_rejects).
    rewrite H. split; [reflexivity|]. intros t'. apply rowsOf_advance.
Qed.

(** ** delete *)

Lemma deleteRow_resolves (t : tableName) (user id : jsval) (w : world) :
  hd None (faults w) = None ->
  deleteRow t user id w =
    (Resolved tt,
     setRows t (filter (fun r => negb (whereIdUser id user r)) (rowsOf t w)) (advance w)).
Proof.
  intros H. unfold deleteRow, andThen, dbDelete.
  now rewrite statement_resolves by assumption.
Qed.

Lemma find_filter_negb (f : row -> bool) (rs : list row) :
  find f (filter (fun r => negb (f r)) rs) = None.
Proof.
  apply find_none_iff. intros r Hin. apply filter_In in Hin.
  destruct Hin as [_ Hn]. now destruct (f r).
Qed.

(** C6. Delete is idempotent, for the three families: when the DELETE and
    the SELECT that follows do not fail, delete resolves whether or not a
    row has the id and the user, and get with the same user and id then
    resolves with the not-found object. *)
Theorem delete_then_get_not_found (t : tableName) (user id : jsval) (w : world) :
  quiet 2 (faults w) = true ->
  fst (deleteOf t user id w) = Resolved tt /\
  fst (getOf t user id (snd (deleteOf t user id w))) = Resolved (NotFound (notFoundOf t)).
Proof.
  intros Hq. apply quiet_S in Hq. destruct Hq as [H1 Hq].
  apply quiet_S in Hq. destruct Hq as [H2 _].
  assert (Hdel : deleteOf t user id w =
            (Resolved tt,
             setRows t (filter (fun r => negb (whereIdUser id user r)) (rowsOf t w))
               (advance w)))
    by (destruct t; now apply deleteRow_resolves).
  rewrite Hdel. split; [reflexivity|]. simpl.
  assert (Hget : forall w1, hd None (faults w1) = None ->
            getOf t user id w1 =
              (Resolved (lookupOf (notFoundOf t)
                 (find (whereIdUser id user) (rowsOf t w1))), advance w1))
    by (intros w1 Hw1; destruct t; now apply getRow_resolves).
  rewrite Hget.
  - simpl. now rewrite rowsOf_setRows, find_filter_negb.
  - now rewrite faults_setRows, faults_advance.
Qed.

(** ** Distinct ids and the rows of other users *)

Lemma updated_ids (date : string) (value : jsval) (where_ : row -> bool)
    (rs : list row) :
  map row_id (updated date value where_ rs) = map row_id rs.
Proof.
  unfold updated. rewrite map_map. apply map_ext. intros r. now destruct (where_ r).
Qed.

Lemma filter_distinctIds (f : row -> bool) (rs : list row) :
  distinctIds rs -> distinctIds (filter f rs).
Proof.
  unfold distinctIds. induction rs as [|x rs IH]; simpl; intros H; [constructor|].
  inversion H as [|? ? Hnot Hrest]; subst.
  destruct (f x); simpl; [|now apply IH].
  constructor; [|now apply IH].
  intros Hin. apply Hnot. apply in_map_iff in Hin. destruct Hin as [y [Hy Hin]].
  apply filter_In in Hin. rewrite <- Hy. apply in_map. tauto.
Qed.

Lemma inserted_distinctIds (rs : list row) (date : string) (value : jsval) (u : Z) :
  distinctIds rs -> distinctIds (rs ++ [mkRow (assignedId rs) date value u]).
Proof.
  unfold distinctIds. intros H. rewrite map_app. simpl.
  apply NoDup_app.
  - assumption.
  - constructor; [easy | constructor].
  - intros z Hz [<-|[]]. now apply (assignedId_fresh rs).
Qed.

(** Create, update and delete keep the ids of every table distinct. *)
Lemma createRow_distinctIds (t t' : tableName) (notFound : string) (s : draft) (w : world) :
  distinctIds (rowsOf t' w) -> distinctIds (rowsOf t' (snd (createRow t notFound s w))).
Proof.
  intros H. destruct (hd None (faults w)) as [e|] eqn:Hq.
  - rewrite (createRow_rejects _ _ _ _ e) by assumption. simpl. now rewrite rowsOf_advance.
  - rewrite createRow_resolves by assumption. rewrite getRow_rows.
    assert (Hd : {t = t'} + {t <> t'}) by decide equality.
    destruct Hd as [<-|Hne].
    + rewrite rowsOf_setRows. now apply inserted_distinctIds.
    + now rewrite rowsOf_setRows_other, rowsOf_advance.
Qed.

Lemma updateRow_distinctIds (t t' : tableName) (notFound : string) (user id : jsval)
    (s : row) (w : world) :
  distinctIds (rowsOf t' w) -> distinctIds (rowsOf t' (snd (updateRow t notFound user id s w))).
Proof.
  intros H. destruct (hd None (faults w)) as [e|] eqn:Hq.
  - unfold updateRow, andThen, dbUpdate. rewrite (statement_rejects _ _ _ e) by assumption.
    simpl. now rewrite rowsOf_advance.
  - rewrite updateRow_resolves by assumption. rewrite getRow_rows.
    assert (Hd : {t = t'} + {t <> t'}) by decide equality.
    destruct Hd as [<-|Hne].
    + rewrite rowsOf_setRows. unfold distinctIds. now rewrite updated_ids.
    + now rewrite rowsOf_setRows_other, rowsOf_advance.
Qed.

Lemma deleteRow_distinctIds (t t' : tableName) (user id : jsval) (w : world) :
  distinctIds (rowsOf t' w) -> distinctIds (rowsOf t' (snd (deleteRow t user id w))).
Proof.
  intros H. destruct (hd None (faults w)) as [e|] eqn:Hq.
  - unfold deleteRow, andThen, dbDelete. rewrite (statement_rejects _ _ _ e) by assumption.
    simpl. now rewrite rowsOf_advance.
  - rewrite deleteRow_resolves by assumption. simpl.
    assert (Hd : {t = t'} + {t <> t'}) by decide equality.
    destruct Hd as [<-|Hne].
    + rewrite rowsOf_setRows. now apply filter_distinctIds.
    + now rewrite rowsOf_setRows_other, rowsOf_advance.
Qed.

(** The writes of update and delete leave alone every row that does not
    have both the id and the user given: no row of another user is
    changed or removed. *)
Lemma updateRow_keeps_others (t : tableName) (notFound : string) (user id : jsval)
    (s : row) (w : world) (r : row) :
  In r (rowsOf t w) -> sqlInt user <> Some (row_user r) ->
  In r (rowsOf t (snd (updateRow t notFound user id s w))).
Proof.
  intros Hin Hne.
  assert (Hw : whereIdUser id user r = false).
  { unfold whereIdUser. destruct (colEq (row_user r) user) eqn:Hu.
    - apply colEq_true in Hu. contradiction.
    - apply andb_false_r. }
  destruct (hd None (faults w)) as [e|] eqn:Hq.
  - unfold updateRow, andThen, dbUpdate. rewrite (statement_rejects _ _ _ e) by assumption.
    simpl. now rewrite rowsOf_advance.
  - rewrite updateRow_resolves by assumption. rewrite getRow_rows, rowsOf_setRows.
    unfold updated. apply in_map_iff. exists r. now rewrite Hw.
Qed.

Lemma deleteRow_keeps_others (t : tableName) (user id : jsval) (w : world) (r : row) :
  In r (rowsOf t w) -> sqlInt user <> Some (row_user r) ->
  In r (rowsOf t (snd (deleteRow t user id w))).
Proof.
  intros Hin Hne.
  assert (Hw : whereIdUser id user r = false).
  { unfold whereIdUser. destruct (colEq (row_user r) user) eqn:Hu.
    - apply colEq_true in Hu. contradiction.
    - apply andb_false_r. }
  destruct (hd None (faults w)) as [e|] eqn:Hq.
  - unfold deleteRow, andThen, dbDelete. rewrite (statement_rejects _ _ _ e) by assumption.
    simpl. now rewrite rowsOf_advance.
  - rewrite deleteRow_resolves by assumption. simpl. rewrite rowsOf_setRows.
    apply filter_In. split; [assumption|]. now rewrite Hw.
Qed.

(** ** list and the latest temperature *)

Lemma listRows_resolves (t : tableName) (user : jsval) (w : world) :
  hd None (faults w) = None ->
  listRows t user w =
    (Resolved (map withDayjs (filter (whereUser user) (rowsOf t w))), advance w).
Proof.
  intros H. unfold listRows, andThen, dbAll.
  rewrite statement_resolves by assumption. simpl. now rewrite setRows_same.
Qed.

(** A list resolves with rows of the user asked for only. *)
Lemma listRows_scoped (t : tableName) (user : jsval) (w : world) (l : list listed) :
  fst (listRows t user w) = Resolved l ->
  forall x, In x l -> sqlInt user = Some (listed_user x).
Proof.
  destruct (hd None (faults w)) as [e|] eqn:H.
  - unfold listRows, andThen, dbAll. rewrite (statement_rejects _ _ _ e) by assumption.
    discriminate.
  - rewrite listRows_resolves by assumption. simpl. intros [= <-] x Hin.
    apply in_map_iff in Hin. destruct Hin as [r [<- Hin]].
    apply filter_In in Hin. destruct Hin as [_ Hu]. now apply colEq_true in Hu.
Qed.

Lemma string_compare_refl (a : string) : String.compare a a = Eq.
Proof.
  pose proof (String.compare_antisym a a) as H.
  destruct (String.compare a a); try reflexivity; discriminate.
Qed.

Lemma string_leb_refl (a : string) : String.leb a a = true.
Proof. unfold String.leb. now rewrite string_compare_refl. Qed.

Lemma string_leb_trans (a b c : string) :
  String.leb a b = true -> String.leb b c = true -> String.leb a c = true.
Proof.
  revert b c. induction a as [|x a IH]; intros [|y b] [|z c]; try easy.
  unfold String.leb in *. cbn [String.compare]. unfold Ascii.compare.
  destruct (N.compare_spec (N_of_ascii x) (N_of_ascii y));
    destruct (N.compare_spec (N_of_ascii y) (N_of_ascii z));
    destruct (N.compare_spec (N_of_ascii x) (N_of_ascii z));
    try easy; try lia.
  apply IH.
Qed.

Lemma string_ltb_leb (a b : string) : String.ltb a b = true -> String.leb a b = true.
Proof.
  unfold String.ltb, String.leb. now destruct (String.compare a b).
Qed.

Lemma string_ltb_false (a b : string) : String.ltb a b = false -> String.leb b a = true.
Proof.
  unfold String.ltb, String.leb. rewrite (String.compare_antisym b a).
  now destruct (String.compare a b).
Qed.

Lemma insertDesc_perm (r : row) (rs : list row) : Permutation (insertDesc r rs) (r :: rs).
Proof.
  induction rs as [|x rs IH]; simpl; [reflexivity|].
  destruct (String.ltb (row_date r) (row_date x)); [|reflexivity].
  rewrite IH. apply perm_swap.
Qed.

Lemma orderByDateDesc_perm (rs : list row) : Permutation (orderByDateDesc rs) rs.
Proof.
  induction rs as [|x rs IH]; simpl; [reflexivity|].
  rewrite insertDesc_perm. now constructor.
Qed.

Lemma insertDesc_sorted (r : row) (rs : list row) :
  byDateDesc rs -> byDateDesc (insertDesc r rs).
Proof.
  unfold byDateDesc. induction rs as [|x rs IH]; intros Hs; simpl.
  - constructor; constructor.
  - inversion Hs as [|? ? Hrest Hall]; subst.
    destruct (String.ltb (row_date r) (row_date x)) eqn:Hlt.
    + constructor; [now apply IH|].
      rewrite Forall_forall in Hall |- *. intros y Hy.
      apply (Permutation_in _ (insertDesc_perm r rs)) in Hy.
      destruct Hy as [<-|Hy]; [now apply string_ltb_leb | now apply Hall].
    + constructor; [assumption|]. constructor.
      * now apply string_ltb_false.
      * rewrite Forall_forall in Hall |- *. intros y Hy.
        apply string_leb_trans with (b := row_date x); [now apply Hall|].
        now apply string_ltb_false.
Qed.

(** Rows that share one date come out in the order of the table. *)
Lemma orderByDateDesc_ties (rs : list row) (date : string) :
  (forall r, In r rs -> row_date r = date) -> orderByDateDesc rs = rs.
Proof.
  induction rs as [|x rs IH]; intros H; [reflexivity|]. simpl.
  rewrite IH by (intros r Hin; apply H; now right).
  destruct rs as [|y rs]; [reflexivity|]. simpl.
  rewrite (H x (or_introl eq_refl)), (H y (or_intror (or_introl eq_refl))).
  unfold String.ltb. now rewrite string_compare_refl.
Qed.

Lemma orderByDateDesc_sorted (rs : list row) : byDateDesc (orderByDateDesc rs).
Proof.
  induction rs as [|x rs IH]; simpl; [constructor | now apply insertDesc_sorted].
Qed.

Lemma orderByDateDesc_head (rs : list row) (r : row) :
  hd_error (orderByDateDesc rs) = Some r ->
  In r rs /\ forall x, In x rs -> String.leb (row_date x) (row_date r) = true.
Proof.
  pose proof (orderByDateDesc_sorted rs) as Hs.
  pose proof (orderByDateDesc_perm rs) as Hp.
  destruct (orderByDateDesc rs) as [|y l]; [discriminate|]. intros [= ->].
  split.
  - apply (Permutation_in _ Hp). now left.
  - intros x Hx. apply (Permutation_in _ (Permutation_sym Hp)) in Hx.
    inversion Hs as [|? ? _ Hall]; subst. destruct Hx as [<-|Hx].
    + apply string_leb_refl.
    + rewrite Forall_forall in Hall. now apply Hall.
Qed.

Lemma orderByDateDesc_nil (rs : list row) : orderByDateDesc rs = [] -> rs = [].
Proof.
  intros H. pose proof (orderByDateDesc_perm rs) as Hp. rewrite H in Hp.
  now apply Permutation_nil.
Qed.

Lemma getLastTemperature_resolves (user : jsval) (w : world) :
  hd None (faults w) = None ->
  getLastTemperature user w =
    (Resolved (lookupOf noTemperature
       (hd_error (orderByDateDesc (filter (whereUser user) (temperatures w))))),
     advance w).
Proof.
  intros H. unfold getLastTemperature, andThen, dbGetLatest.
  rewrite statement_resolves by assumption. simpl.
  now destruct (hd_error _).
Qed.

(** C8. The last temperature of a user, when the SELECT does not fail:
    if the user owns no temperature the result is the not-found object,
    which the route GET /api/temperatures/last (run for user 1) sends
    with status 404; otherwise it is a temperature of that user such that
    no temperature of that user has a later date, dates being compared
    as the store orders their text. *)
Theorem last_temperature_is_latest (user : jsval) (w : world) :
  hd None (faults w) = None ->
  (filter (whereUser user) (temperatures w) = [] ->
     fst (getLastTemperature user w) = Resolved (NotFound noTemperature)) /\
  (filter (whereUser user) (temperatures w) <> [] ->
     exists r,
       fst (getLastTemperature user w) = Resolved (Found r) /\
       In r (temperatures w) /\ whereUser user r = true /\
       forall x, In x (temperatures w) -> whereUser user x = true ->
         String.leb (row_date x) (row_date r) = true) /\
  (forall ctx req,
     filter (whereUser (jsInt 1)) (temperatures w) = [] ->
     sent (getTemperaturesLast ctx req w) = mkResponse 404 (JsonError noTemperature)).
Proof.
  intros Hq. split; [|split].
  - intros He. rewrite getLastTemperature_resolves by assumption. now rewrite He.
  - intros Hne. rewrite getLastTemperature_resolves by assumption.
    destruct (hd_error (orderByDateDesc (filter (whereUser user) (temperatures w))))
      as [r|] eqn:Hhd.
    + exists r. apply orderByDateDesc_head in Hhd. destruct Hhd as [Hin Hmax].
      apply filter_In in Hin. destruct Hin as [Hin Hu].
      repeat split; try assumption.
      intros x Hx Hxu. apply Hmax. apply filter_In. now split.
    + exfalso. apply Hne. apply orderByDateDesc_nil.
      now destruct (orderByDateDesc _).
  - intros ctx req He. unfold getTemperaturesLast.
    rewrite getLastTemperature_resolves by assumption. now rewrite He.
Qed.

(** ** The routes *)

Ltac split_cases :=
  repeat match goal with
  | |- context [match ?x with _ => _ end] => destruct x eqn:?
  | |- context [if ?b then _ else _] => destruct b eqn:?
  end.

Lemma sendLookup_status (p : outcome lookup * world) (call : list daoCall) :
  status (sent (sendLookup p call)) <> 401 /\ calls (sendLookup p call) = call.
Proof.
  destruct p as [[[r|e]|e] w']; simpl; split; (discriminate || reflexivity).
Qed.

Lemma putRecord_status (t : tableName) (valueRule : rule) (word : string)
    (get : jsval -> jsval -> Promise lookup)
    (update : jsval -> jsval -> row -> Promise lookup)
    (ctx : context) (req : request) (w : world) :
  status (sent (putRecord t valueRule word get update ctx req w)) <> 401 /\
  forall c, In c (calls (putRecord t valueRule word get update ctx req w)) ->
    call_user c = body_user req.
Proof.
  unfold putRecord. split_cases; simpl; split; try discriminate;
    intros c Hin; repeat (destruct Hin as [<-|Hin]; [reflexivity|]); now elim Hin.
Qed.

(** No route looks at the session or answers 401, and the user noted
    with each call is 1, or the user of the body in the PUT routes. *)
Lemma routes_open_and_noted (rt : route) (ctx : context) (req : request)
    (w : world) :
  (forall someone : option user,
     handle rt (mkContext someone (now ctx)) req w = handle rt ctx req w) /\
  status (sent (handle rt ctx req w)) <> 401 /\
  (forall c, In c (calls (handle rt ctx req w)) ->
     call_user c = if isPut rt then body_user req else jsInt 1).
Proof.
  split; [intros someone; destruct rt; reflexivity|].
  destruct rt; simpl;
    try (apply putRecord_status);
    try (unfold getTemperaturesLast, getTemperaturesId, getSwitchesId, getLightsId;
         match goal with
         | |- context [sendLookup ?p ?c] =>
             destruct (sendLookup_status p c) as [Hs Hc]; rewrite Hc; split;
             [exact Hs | intros x [<-|[]]; reflexivity]
         end).
  - unfold getTemperatures. split_cases; simpl; split; try discriminate;
      intros c [<-|[]]; reflexivity.
  - unfold postTemperatures. split_cases; simpl; split; try discriminate;
      intros c Hin; try (now elim Hin); destruct Hin as [<-|[]]; reflexivity.
  - unfold deleteTemperaturesId. split_cases; simpl; split; try discriminate;
      intros c [<-|[]]; reflexivity.
Qed.

(** C7, as the server has it. A login attempt with a username and a
    password, both not empty, that the credential check refuses is
    answered 401 with [{error: 'Incorrect username or password'}] and
    leaves the session as it was, so any two such attempts, whether the
    username is unknown or the password wrong, are answered alike. An
    attempt without a username or without a password is refused before
    the credential check, whatever that check would say, with 401 and
    [{error: {message: 'Missing credentials'}}]. An attempt with both
    that the check accepts is answered 200 with the user object (id,
    username, name) once the session is established. *)
Theorem login_failure_is_uniform :
  (forall ctx loginError username password,
     username <> "" -> password <> "" ->
     getUser username password = None ->
     postSessions ctx loginError username password =
       LoginSent (mkResponse 401 (JsonError "Incorrect username or password"))
                 (session ctx)) /\
  (forall ctx loginError username1 password1 username2 password2,
     username1 <> "" -> password1 <> "" -> username2 <> "" -> password2 <> "" ->
     getUser username1 password1 = None ->
     getUser username2 password2 = None ->
     postSessions ctx loginError username1 password1 =
       postSessions ctx loginError username2 password2) /\
  (forall ctx loginError username password,
     username = "" \/ password = "" ->
     postSessions ctx loginError username password =
       LoginSent (mkResponse 401 (JsonErrorMessage "Missing credentials"))
                 (session ctx)) /\
  (forall ctx username password u,
     username <> "" -> password <> "" ->
     getUser username password = Some u ->
     postSessions ctx None username password =
       LoginSent (mkResponse 200 (JsonUser u)) (Some u)).
Proof.
  assert (Hfull : forall username password,
            username <> "" -> password <> "" ->
            localStrategy username password =
              match getUser username password with
              | None => Failed (ChallengeText incorrectLogin)
              | Some u => Succeeded u
              end).
  { intros un pw Hu Hp. unfold localStrategy, verify.
    apply String.eqb_neq in Hu, Hp. rewrite Hu, Hp. simpl.
    now destruct (getUser un pw). }
  unfold postSessions. repeat split.
  - intros ctx le un pw Hu Hp H. now rewrite Hfull, H.
  - intros ctx le u1 p1 u2 p2 Hu1 Hp1 Hu2 Hp2 H1 H2.
    now rewrite !Hfull, H1, H2.
  - intros ctx le un pw [-> | ->]; unfold localStrategy; simpl; [reflexivity|].
    now rewrite orb_true_r.
  - intros ctx un pw u Hu Hp H. now rewrite Hfull, H.
Qed.

Lemma putRecord_mismatch (t : tableName) (valueRule : rule) (word : string)
    (get : jsval -> jsval -> Promise lookup)
    (update : jsval -> jsval -> row -> Promise lookup)
    (ctx : context) (req : request) (w : world) :
  validationResult [check ["id"] isInt; check ["value"] valueRule] req = [] ->
  strictNeqNum (body_id req) (Number (params_id req)) = true ->
  putRecord t valueRule word get update ctx req w =
    mkHandled (mkResponse 422 (JsonError idMismatch)) w [].
Proof.
  intros Hv Hne. unfold putRecord. now rewrite Hv, Hne.
Qed.

(** C9. A PUT on /api/switches/:id or /api/lights/:id whose body passes
    the validation chains of the route and whose body id is not strictly
    equal to the number of the path id is answered 422 with
    [{error: 'URL and body id mismatch'}]; no store operation is invoked
    and the world, schedule of the store included, is as before. *)
Theorem put_id_mismatch_is_rejected (ctx : context) (req : request) (w : world) :
  strictNeqNum (body_id req) (Number (params_id req)) = true ->
  (validationResult [check ["id"] isInt; check ["value"] isBoolean] req = [] ->
     putSwitchesId ctx req w =
       mkHandled (mkResponse 422 (JsonError "URL and body id mismatch")) w []) /\
  (validationResult [check ["id"] isInt; check ["value"] isInt] req = [] ->
     putLightsId ctx req w =
       mkHandled (mkResponse 422 (JsonError "URL and body id mismatch")) w []).
Proof.
  intros Hne. split; intros Hv.
  - now apply putRecord_mismatch.
  - now apply putRecord_mismatch.
Qed.

(** * Further properties of the data-access objects *)

Lemma getOf_unfold (t : tableName) : getOf t = getRow t (notFoundOf t).
Proof. now destruct t. Qed.

Lemma listOf_unfold (t : tableName) : listOf t = listRows t.
Proof. now destruct t. Qed.

Lemma createOf_unfold (t : tableName) : createOf t = createRow t (notFoundOf t).
Proof. now destruct t. Qed.

Lemma deleteOf_unfold (t : tableName) : deleteOf t = deleteRow t.
Proof. now destruct t. Qed.

Lemma tableName_eq_dec (t t' : tableName) : {t = t'} + {t <> t'}.
Proof. decide equality. Qed.

Lemma listRows_rejects (t : tableName) (user : jsval) (w : world) (e : dberr) :
  hd None (faults w) = Some e -> listRows t user w = (Rejected e, advance w).
Proof.
  intros H. unfold listRows, andThen, dbAll. now rewrite (statement_rejects _ _ _ e).
Qed.

Lemma deleteRow_rejects (t : tableName) (user id : jsval) (w : world) (e : dberr) :
  hd None (faults w) = Some e -> deleteRow t user id w = (Rejected e, advance w).
Proof.
  intros H. unfold deleteRow, andThen, dbDelete. now rewrite (statement_rejects _ _ _ e).
Qed.

Lemma updateRow_rejects (t : tableName) (notFound : string) (user id : jsval)
    (s : row) (w : world) (e : dberr) :
  hd None (faults w) = Some e ->
  updateRow t notFound user id s w = (Rejected e, advance w).
Proof.
  intros H. unfold updateRow, andThen, dbUpdate. now rewrite (statement_rejects _ _ _ e).
Qed.

Lemma getLastTemperature_rejects (user : jsval) (w : world) (e : dberr) :
  hd None (faults w) = Some e -> getLastTemperature user w = (Rejected e, advance w).
Proof.
  intros H. unfold getLastTemperature, andThen, dbGetLatest.
  now rewrite (statement_rejects _ _ _ e).
Qed.

Lemma find_ext (f g : row -> bool) (rs : list row) :
  (forall r, In r rs -> f r = g r) -> find f rs = find g rs.
Proof.
  induction rs as [|x rs IH]; intros H; [reflexivity|]. simpl.
  rewrite (H x (or_introl eq_refl)). destruct (g x); [reflexivity|].
  apply IH. intros r Hin. apply H. now right.
Qed.

(** In a table with distinct ids, the first row with the id of [r] is [r]. *)
Lemma find_own_row (rs : list row) (r : row) :
  distinctIds rs -> In r rs ->
  find (whereIdUser (jsInt (row_id r)) (jsInt (row_user r))) rs = Some r.
Proof.
  unfold distinctIds. induction rs as [|x rs IH]; intros Hnd Hin; [easy|].
  simpl in Hnd. inversion Hnd as [|? ? Hnot Hrest]; subst. simpl.
  destruct Hin as [->|Hin]; [now rewrite whereIdUser_own|].
  replace (whereIdUser (jsInt (row_id r)) (jsInt (row_user r)) x) with false;
    [now apply IH|].
  symmetry. unfold whereIdUser. rewrite colEq_jsInt.
  destruct (row_id x =? row_id r) eqn:E; [|reflexivity].
  apply Z.eqb_eq in E. elim Hnot. rewrite E. now apply in_map.
Qed.

(** X1. With distinct ids in the table, a get for the id of a row that
    belongs to someone else resolves with the not-found object of the
    family: the three get functions never show a row to another user. *)
Theorem get_hides_rows_of_other_users (t : tableName) (u2 : jsval) (w : world) (r : row) :
  distinctIds (rowsOf t w) ->
  In r (rowsOf t w) ->
  sqlInt u2 <> Some (row_user r) ->
  hd None (faults w) = None ->
  fst (getOf t u2 (jsInt (row_id r)) w) = Resolved (NotFound (notFoundOf t)).
Proof.
  intros. rewrite getOf_unfold. now apply getRow_isolation.
Qed.

(** X2. With distinct ids in the table, a get with the user and the id of
    a row of the table resolves with that row and changes no table. *)
Theorem get_finds_row_of_its_user (t : tableName) (w : world) (r : row) :
  distinctIds (rowsOf t w) ->
  In r (rowsOf t w) ->
  hd None (faults w) = None ->
  getOf t (jsInt (row_user r)) (jsInt (row_id r)) w = (Resolved (Found r), advance w).
Proof.
  intros Hnd Hin Hq. rewrite getOf_unfold, getRow_resolves by assumption.
  now rewrite find_own_row.
Qed.

(** X3. A get for an id that no row of the table has resolves with the
    not-found object, whoever asks; it is not an error. *)
Theorem get_of_absent_id_is_not_found (t : tableName) (user id : jsval) (w : world) :
  (forall r, In r (rowsOf t w) -> sqlInt id <> Some (row_id r)) ->
  hd None (faults w) = None ->
  getOf t user id w = (Resolved (NotFound (notFoundOf t)), advance w).
Proof.
  intros Hno Hq. rewrite getOf_unfold, getRow_resolves by assumption.
  replace (find _ _) with (@None row); [reflexivity|].
  symmetry. apply find_none_iff. intros r Hin. unfold whereIdUser.
  destruct (colEq (row_id r) id) eqn:E; [|reflexivity].
  apply colEq_true in E. now elim (Hno r Hin).
Qed.

(** X4. A list resolves with the rows of the user, each with its date as
    a dayjs object, and with nothing else: a record is listed exactly
    when it comes from a row of the table owned by the user. When the
    user owns no row the list is empty, not an error. *)
Theorem list_gives_the_rows_of_the_user (t : tableName) (user : jsval) (w : world) :
  hd None (faults w) = None ->
  exists l,
    listOf t user w = (Resolved l, advance w) /\
    (forall x, In x l <->
       exists r, In r (rowsOf t w) /\ sqlInt user = Some (row_user r) /\ x = withDayjs r) /\
    ((forall r, In r (rowsOf t w) -> sqlInt user <> Some (row_user r)) -> l = []).
Proof.
  intros Hq. exists (map withDayjs (filter (whereUser user) (rowsOf t w))).
  split; [|split].
  - rewrite listOf_unfold. now apply listRows_resolves.
  - intros x. rewrite in_map_iff. split.
    + intros [r [<- Hin]]. apply filter_In in Hin. destruct Hin as [Hin Hu].
      exists r. repeat split; [assumption|]. now apply colEq_true in Hu.
    + intros [r [Hin [Hu ->]]]. exists r. split; [reflexivity|].
      apply filter_In. split; [assumption|]. now apply colEq_true.
  - intros Hno. replace (filter (whereUser user) (rowsOf t w)) with (@nil row);
      [reflexivity|].
    symmetry. induction (rowsOf t w) as [|x rs IH]; [reflexivity|]. simpl.
    destruct (whereUser user x) eqn:E.
    + apply colEq_true in E. now elim (Hno x (or_introl eq_refl)).
    + apply IH. intros r Hin. apply Hno. now right.
Qed.

Lemma listRows_rows (t t' : tableName) (user : jsval) (w : world) :
  rowsOf t' (snd (listRows t user w)) = rowsOf t' w.
Proof.
  destruct (hd None (faults w)) as [e|] eqn:H.
  - rewrite (listRows_rejects _ _ _ e) by assumption. apply rowsOf_advance.
  - rewrite listRows_resolves by assumption. apply rowsOf_advance.
Qed.

Lemma getLastTemperature_rows (t' : tableName) (user : jsval) (w : world) :
  rowsOf t' (snd (getLastTemperature user w)) = rowsOf t' w.
Proof.
  destruct (hd None (faults w)) as [e|] eqn:H.
  - rewrite (getLastTemperature_rejects _ _ e) by assumption. apply rowsOf_advance.
  - rewrite getLastTemperature_resolves by assumption. apply rowsOf_advance.
Qed.

(** X5. The reading functions (list, get, last temperature) change no
    table, whether the store answers or fails. *)
Theorem reads_change_no_table (t t' : tableName) (user id : jsval) (w : world) :
  rowsOf t' (snd (listOf t user w)) = rowsOf t' w /\
  rowsOf t' (snd (getOf t user id w)) = rowsOf t' w /\
  rowsOf t' (snd (getLastTemperature user w)) = rowsOf t' w.
Proof.
  split; [|split].
  - rewrite listOf_unfold. apply listRows_rows.
  - rewrite getOf_unfold. apply getRow_rows.
  - apply getLastTemperature_rows.
Qed.

(** X6. Create, update and delete keep the ids of every table distinct,
    whether the store answers or fails. *)
Theorem writes_keep_ids_distinct (t t' : tableName) (user id : jsval) (d : draft)
    (s : row) (w : world) :
  distinctIds (rowsOf t' w) ->
  distinctIds (rowsOf t' (snd (createOf t d w))) /\
  distinctIds (rowsOf t' (snd (deleteOf t user id w))) /\
  distinctIds (rowsOf t' (snd (updateSwitch user id s w))) /\
  distinctIds (rowsOf t' (snd (updateLight user id s w))).
Proof.
  intros H. repeat split.
  - rewrite createOf_unfold. now apply createRow_distinctIds.
  - rewrite deleteOf_unfold. now apply deleteRow_distinctIds.
  - now apply updateRow_distinctIds.
  - now apply updateRow_distinctIds.
Qed.

(** X7. The writes leave the rows of other users alone: a row whose user
    is not the one given is still in its table, unchanged, after a
    delete or an update, whatever the id and whether the store answers
    or fails; and create removes no row at all. *)
Theorem writes_keep_rows_of_other_users (user id : jsval) (d : draft) (s : row)
    (w : world) (r : row) :
  sqlInt user <> Some (row_user r) ->
  (forall t, In r (rowsOf t w) -> In r (rowsOf t (snd (deleteOf t user id w)))) /\
  (In r (switches w) -> In r (switches (snd (updateSwitch user id s w)))) /\
  (In r (lights w) -> In r (lights (snd (updateLight user id s w)))) /\
  (forall t x, In x (rowsOf t w) -> In x (rowsOf t (snd (createOf t d w)))).
Proof.
  intros Hne. repeat split.
  - intros t Hin. rewrite deleteOf_unfold. now apply deleteRow_keeps_others.
  - intros Hin. now apply (updateRow_keeps_others Switches).
  - intros Hin. now apply (updateRow_keeps_others Lights).
  - intros t x Hin. rewrite createOf_unfold.
    destruct (hd None (faults w)) as [e|] eqn:Hq.
    + rewrite (createRow_rejects _ _ _ _ e) by assumption. simpl.
      now rewrite rowsOf_advance.
    + rewrite createRow_resolves by assumption.
      rewrite getRow_rows, rowsOf_setRows. apply in_or_app. now left.
Qed.

(** X8. When the store fails on the first statement of an operation, the
    operation rejects with the error of the store and no table changes.
    Stated for list, get, delete, the two updates and the last
    temperature. *)
Theorem failure_rejects_and_changes_nothing (t : tableName) (user id : jsval)
    (s : row) (w : world) (e : dberr) :
  hd None (faults w) = Some e ->
  (fst (listOf t user w) = Rejected e /\
   forall t', rowsOf t' (snd (listOf t user w)) = rowsOf t' w) /\
  (fst (getOf t user id w) = Rejected e /\
   forall t', rowsOf t' (snd (getOf t user id w)) = rowsOf t' w) /\
  (fst (deleteOf t user id w) = Rejected e /\
   forall t', rowsOf t' (snd (deleteOf t user id w)) = rowsOf t' w) /\
  (fst (updateSwitch user id s w) = Rejected e /\
   forall t', rowsOf t' (snd (updateSwitch user id s w)) = rowsOf t' w) /\
  (fst (updateLight user id s w) = Rejected e /\
   forall t', rowsOf t' (snd (updateLight user id s w)) = rowsOf t' w) /\
  (fst (getLastTemperature user w) = Rejected e /\
   forall t', rowsOf t' (snd (getLastTemperature user w)) = rowsOf t' w).
Proof.
  intros H.
  rewrite listOf_unfold, getOf_unfold, deleteOf_unfold.
  unfold updateSwitch, updateLight.
  rewrite (listRows_rejects _ _ _ e), (getRow_rejects _ _ _ _ _ e),
    (deleteRow_rejects _ _ _ _ e), !(updateRow_rejects _ _ _ _ _ _ e),
    (getLastTemperature_rejects _ _ e) by assumption.
  simpl. repeat split; intros t'; apply rowsOf_advance.
Qed.

(** X9. A write followed by a failing read-back is not undone: when the
    INSERT of create or the UPDATE of update succeeds and the SELECT that
    follows fails, the call rejects with that error although the row has
    been added, or the rows rewritten. *)
Theorem failed_read_back_keeps_the_write (t : tableName) (user id : jsval) (d : draft)
    (s : row) (w : world) (e : dberr) :
  hd None (faults w) = None ->
  hd None (tl (faults w)) = Some e ->
  (fst (createOf t d w) = Rejected e /\
   rowsOf t (snd (createOf t d w)) =
     rowsOf t w ++ [mkRow (assignedId (rowsOf t w)) (draft_date d) (draft_value d)
                      (draft_user d)]) /\
  (fst (updateSwitch user id s w) = Rejected e /\
   switches (snd (updateSwitch user id s w)) =
     updated (row_date s) (row_value s) (whereIdUser id user) (switches w)) /\
  (fst (updateLight user id s w) = Rejected e /\
   lights (snd (updateLight user id s w)) =
     updated (row_date s) (row_value s) (whereIdUser id user) (lights w)).
Proof.
  intros H1 H2. split; [|split].
  - rewrite createOf_unfold, createRow_resolves by assumption.
    rewrite (getRow_rejects _ _ _ _ _ e).
    + simpl. now rewrite rowsOf_advance, rowsOf_setRows.
    + now rewrite faults_setRows, faults_advance.
  - unfold updateSwitch. rewrite updateRow_resolves by assumption.
    rewrite (getRow_rejects _ _ _ _ _ e).
    + now split.
    + now rewrite faults_setRows, faults_advance.
  - unfold updateLight. rewrite updateRow_resolves by assumption.
    rewrite (getRow_rejects _ _ _ _ _ e).
    + now split.
    + now rewrite faults_setRows, faults_advance.
Qed.

Lemma filter_twice (f : row -> bool) (rs : list row) :
  filter f (filter f rs) = filter f rs.
Proof.
  induction rs as [|x rs IH]; [reflexivity|]. simpl.
  destruct (f x) eqn:E; [|assumption]. simpl. now rewrite E, IH.
Qed.

(** X10. A delete that does not fail removes from its table exactly the
    rows with the id and the user given, and touches no other table;
    the same delete once more changes nothing. *)
Theorem delete_removes_matching_rows_only (t : tableName) (user id : jsval) (w : world) :
  quiet 2 (faults w) = true ->
  (forall r, In r (rowsOf t (snd (deleteOf t user id w))) <->
             In r (rowsOf t w) /\ whereIdUser id user r = false) /\
  (forall t', t <> t' -> rowsOf t' (snd (deleteOf t user id w)) = rowsOf t' w) /\
  (forall t', rowsOf t' (snd (deleteOf t user id (snd (deleteOf t user id w)))) =
              rowsOf t' (snd (deleteOf t user id w))).
Proof.
  intros Hq. apply quiet_S in Hq. destruct Hq as [H1 Hq].
  apply quiet_S in Hq. destruct Hq as [H2 _].
  rewrite deleteOf_unfold, deleteRow_resolves by assumption. simpl.
  split; [|split].
  - intros r. rewrite rowsOf_setRows, filter_In.
    now destruct (whereIdUser id user r).
  - intros t' Hne. now rewrite rowsOf_setRows_other, rowsOf_advance.
  - intros t'. rewrite deleteRow_resolves
      by now rewrite faults_setRows, faults_advance.
    simpl. rewrite rowsOf_setRows.
    destruct (tableName_eq_dec t t') as [<-|Hne].
    + now rewrite !rowsOf_setRows, filter_twice.
    + now rewrite !rowsOf_setRows_other, !rowsOf_advance, rowsOf_setRows_other,
        rowsOf_advance by assumption.
Qed.

Lemma createRow_appends (t : tableName) (notFound : string) (d : draft) (w : world) :
  quiet 2 (faults w) = true ->
  let r := mkRow (assignedId (rowsOf t w)) (draft_date d) (draft_value d) (draft_user d) in
  createRow t notFound d w =
    (Resolved (Found r), advance (setRows t (rowsOf t w ++ [r]) (advance w))).
Proof.
  intros Hq r. apply quiet_S in Hq. destruct Hq as [H1 Hq].
  apply quiet_S in Hq. destruct Hq as [H2 _].
  rewrite createRow_resolves by assumption. fold r.
  rewrite getRow_resolves by now rewrite faults_setRows, faults_advance.
  rewrite rowsOf_setRows.
  assert (Hf : find (whereIdUser (jsInt (row_id r)) (jsInt (row_user r)))
                 (rowsOf t w ++ [r]) = Some r) by apply find_inserted.
  now rewrite Hf.
Qed.

Lemma whereUser_jsInt (u : Z) (r : row) : whereUser (jsInt u) r = (row_user r =? u).
Proof. reflexivity. Qed.

(** X11. Create then list. When nothing fails, the list of the user of
    the new record is the list as it was followed by that record, and the
    list of any other user is as it was. *)
Theorem create_then_list (t : tableName) (d : draft) (u2 : jsval) (w : world) :
  quiet 3 (faults w) = true ->
  exists r before,
    fst (createOf t d w) = Resolved (Found r) /\
    fst (listOf t (jsInt (draft_user d)) w) = Resolved before /\
    fst (listOf t (jsInt (draft_user d)) (snd (createOf t d w)))
      = Resolved (before ++ [withDayjs r]) /\
    (sqlInt u2 <> Some (draft_user d) ->
     fst (listOf t u2 (snd (createOf t d w))) = fst (listOf t u2 w)).
Proof.
  intros Hq.
  assert (Hq2 : quiet 2 (faults w) = true).
  { apply quiet_S in Hq. destruct Hq as [H1 Hq]. apply quiet_S in Hq.
    destruct Hq as [H2 _]. simpl. now rewrite H1, H2. }
  assert (H1 : hd None (faults w) = None) by now apply quiet_S in Hq.
  assert (H3 : hd None (tl (tl (faults w))) = None).
  { apply quiet_S in Hq. destruct Hq as [_ Hq]. apply quiet_S in Hq.
    destruct Hq as [_ Hq]. now apply quiet_S in Hq. }
  set (r := mkRow (assignedId (rowsOf t w)) (draft_date d) (draft_value d) (draft_user d)).
  exists r, (map withDayjs (filter (whereUser (jsInt (draft_user d))) (rowsOf t w))).
  rewrite createOf_unfold, listOf_unfold.
  rewrite (createRow_appends t (notFoundOf t) d w Hq2). fold r. simpl.
  assert (Hw2 : hd None (faults (advance (setRows t (rowsOf t w ++ [r]) (advance w)))) = None).
  { now rewrite faults_advance, faults_setRows, faults_advance. }
  split; [reflexivity|]. split; [|split].
  - now rewrite listRows_resolves.
  - rewrite listRows_resolves by assumption. simpl.
    rewrite rowsOf_advance, rowsOf_setRows, filter_app, map_app. simpl.
    rewrite whereUser_jsInt. simpl. now rewrite Z.eqb_refl.
  - intros Hne. rewrite !listRows_resolves by assumption. simpl.
    rewrite rowsOf_advance, rowsOf_setRows, filter_app. simpl.
    replace (whereUser u2 r) with false; [now rewrite app_nil_r|].
    symmetry. unfold whereUser. destruct (colEq (row_user r) u2) eqn:E; [|reflexivity].
    apply colEq_true in E. contradiction.
Qed.

Lemma string_ltb_not_leb (a b : string) :
  String.ltb a b = true -> String.leb b a = true -> False.
Proof.
  unfold String.ltb, String.leb. rewrite (String.compare_antisym a b).
  now destruct (String.compare b a).
Qed.

(** The last temperature of a user when the newest row of the table is
    theirs and dated after all their others. *)
Lemma last_after_append (u : Z) (rows : list row) (r : row) (w2 : world) :
  temperatures w2 = rows ++ [r] ->
  row_user r = u ->
  (forall x, In x rows -> row_user x = u ->
             String.ltb (row_date x) (row_date r) = true) ->
  hd None (faults w2) = None ->
  getLastTemperature (jsInt u) w2 = (Resolved (Found r), advance w2).
Proof.
  intros Hrows Hu Hlater Hq.
  rewrite getLastTemperature_resolves by assumption. rewrite Hrows.
  rewrite filter_app. simpl. rewrite whereUser_jsInt, Hu, Z.eqb_refl.
  destruct (hd_error (orderByDateDesc (filter (whereUser (jsInt u)) rows ++ [r])))
    as [h|] eqn:Hhd.
  - apply orderByDateDesc_head in Hhd. destruct Hhd as [Hin Hmax].
    apply in_app_or in Hin. destruct Hin as [Hin|[<-|[]]]; [|reflexivity].
    exfalso. apply filter_In in Hin. destruct Hin as [Hin Hx].
    rewrite whereUser_jsInt in Hx. apply Z.eqb_eq in Hx.
    apply (string_ltb_not_leb (row_date h) (row_date r)).
    + now apply Hlater.
    + apply Hmax. apply in_or_app. right. now left.
  - exfalso.
    assert (Hnil : orderByDateDesc (filter (whereUser (jsInt u)) rows ++ [r]) = [])
      by now destruct (orderByDateDesc _).
    apply orderByDateDesc_nil in Hnil. now destruct (filter _ _).
Qed.

Lemma quiet_3 (fs : list (option dberr)) :
  quiet 3 fs = true ->
  quiet 2 fs = true /\ hd None fs = None /\ hd None (tl fs) = None /\
  hd None (tl (tl fs)) = None.
Proof.
  intros Hq. apply quiet_S in Hq. destruct Hq as [H1 Hq].
  apply quiet_S in Hq. destruct Hq as [H2 Hq].
  apply quiet_S in Hq. destruct Hq as [H3 _].
  repeat split; try assumption. simpl. now rewrite H1, H2.
Qed.

(** X12. Create then last temperature. When nothing fails and the date
    of the new temperature is later than the date of every temperature
    the user already has, the last temperature of that user is the
    record create resolved with. *)
Theorem create_then_last_temperature (d : draft) (w : world) :
  quiet 3 (faults w) = true ->
  (forall x, In x (temperatures w) -> row_user x = draft_user d ->
             String.ltb (row_date x) (draft_date d) = true) ->
  exists r,
    fst (createTemperature d w) = Resolved (Found r) /\
    fst (getLastTemperature (jsInt (draft_user d)) (snd (createTemperature d w)))
      = Resolved (Found r).
Proof.
  intros Hq Hlater. apply quiet_3 in Hq. destruct Hq as [Hq2 [_ [_ H3]]].
  set (r := mkRow (assignedId (temperatures w)) (draft_date d) (draft_value d)
              (draft_user d)).
  exists r. unfold createTemperature.
  rewrite (createRow_appends Temperatures temperatureNotFound d w Hq2).
  split; [reflexivity|]. simpl snd. fold r.
  rewrite (last_after_append (draft_user d) (temperatures w) r); try easy.
Qed.

(** * Further properties of the routes *)

(** X13. Validation comes before the store: when the chains of
    POST /api/temperatures or of a PUT route report errors, the answer is
    422 with the formatted errors joined by a comma, no store operation
    is invoked and the world is as before. *)
Theorem invalid_body_is_rejected_before_the_store (ctx : context) (req : request)
    (w : world) (errors : list verror) :
  errors <> [] ->
  (validationResult [check ["value"] isFloat] req = errors ->
     postTemperatures ctx req w =
       mkHandled (mkResponse 422 (JsonError (joinedErrors errors))) w []) /\
  (validationResult [check ["id"] isInt; check ["value"] isBoolean] req = errors ->
     putSwitchesId ctx req w =
       mkHandled (mkResponse 422 (JsonError (joinedErrors errors))) w []) /\
  (validationResult [check ["id"] isInt; check ["value"] isInt] req = errors ->
     putLightsId ctx req w =
       mkHandled (mkResponse 422 (JsonError (joinedErrors errors))) w []).
Proof.
  intros Hne. destruct errors as [|e es]; [now elim Hne|].
  unfold postTemperatures, putSwitchesId, putLightsId, putRecord.
  repeat split; intros ->; reflexivity.
Qed.

(** X14. POST /api/temperatures with a body that passes validation, when
    the store does not fail: the answer is 200 with the new record, which
    carries the clock of the server, the value of the body, the user 1
    and an id new to the table, whatever the session and whatever the
    body says of id or user; that record is appended to the temperatures
    and the other tables are untouched. When the INSERT fails the answer
    is 503 with the error in the message and no table changes. *)
Theorem post_temperature_creates_for_user_1 (ctx : context) (req : request) (w : world) :
  validationResult [check ["value"] isFloat] req = [] ->
  (quiet 2 (faults w) = true ->
   exists r,
     sent (postTemperatures ctx req w) = mkResponse 200 (JsonRow r) /\
     row_date r = now ctx /\ row_value r = body_value req /\ row_user r = 1 /\
     ~ In (row_id r) (map row_id (temperatures w)) /\
     temperatures (after (postTemperatures ctx req w)) = temperatures w ++ [r] /\
     switches (after (postTemperatures ctx req w)) = switches w /\
     lights (after (postTemperatures ctx req w)) = lights w) /\
  (forall e, hd None (faults w) = Some e ->
     sent (postTemperatures ctx req w) =
       mkResponse 503 (JsonError
         ("Database error during the creation of new temperature: " ++ e)%string) /\
     forall t, rowsOf t (after (postTemperatures ctx req w)) = rowsOf t w).
Proof.
  intros Hv. unfold postTemperatures. rewrite Hv. split.
  - intros Hq. unfold createTemperature.
    rewrite (createRow_appends Temperatures temperatureNotFound _ w Hq). cbn -[assignedId].
    eexists. split; [reflexivity|]. cbn -[assignedId].
    repeat split. apply assignedId_fresh.
  - intros e He. unfold createTemperature.
    rewrite (createRow_rejects _ _ _ _ e) by assumption. cbn -[String.append].
    split; [reflexivity|]. intros t. now destruct t.
Qed.

(** X15. DELETE /api/temperatures/:id. When the store does not fail the
    answer is 200 with an empty object, whether or not a row was there;
    the temperatures left are those that do not have both the id of the
    path and the user 1, so no temperature of another user is ever
    removed, and the other tables are untouched. When the store fails the
    answer is 503 with the id and the error in the message and no table
    changes. *)
Theorem delete_temperature_route (ctx : context) (req : request) (w : world) :
  (hd None (faults w) = None ->
   sent (deleteTemperaturesId ctx req w) = mkResponse 200 JsonEmpty /\
   temperatures (after (deleteTemperaturesId ctx req w)) =
     filter (fun r => negb (whereIdUser (JStr (params_id req)) (jsInt 1) r))
       (temperatures w) /\
   (forall r, In r (temperatures w) -> row_user r <> 1 ->
      In r (temperatures (after (deleteTemperaturesId ctx req w)))) /\
   switches (after (deleteTemperaturesId ctx req w)) = switches w /\
   lights (after (deleteTemperaturesId ctx req w)) = lights w) /\
  (forall e, hd None (faults w) = Some e ->
   sent (deleteTemperaturesId ctx req w) =
     mkResponse 503 (JsonError
       ("Database error during the deletion of temperature " ++ params_id req
          ++ ": " ++ e ++ " ")%string) /\
   forall t, rowsOf t (after (deleteTemperaturesId ctx req w)) = rowsOf t w).
Proof.
  unfold deleteTemperaturesId, deleteTemperature. split.
  - intros Hq. rewrite deleteRow_resolves by assumption. cbn.
    repeat split. intros r Hin Hne. apply filter_In. split; [assumption|].
    unfold whereIdUser. rewrite (colEq_jsInt (row_user r) 1).
    replace (row_user r =? 1) with false; [now rewrite andb_false_r|].
    symmetry. now apply Z.eqb_neq.
  - intros e He. rewrite (deleteRow_rejects _ _ _ _ e) by assumption.
    cbn -[String.append]. split; [reflexivity|]. intros t. now destruct t.
Qed.

Lemma sendLookup_sent (p : outcome lookup * world) (call : list daoCall) :
  sent (sendLookup p call) =
    match fst p with
    | Resolved (Found r) => mkResponse 200 (JsonRow r)
    | Resolved (NotFound e) => mkResponse 404 (JsonError e)
    | Rejected _ => mkResponse 500 NoBody
    end /\
  after (sendLookup p call) = snd p.
Proof. now destruct p as [[[r|e]|e] w']. Qed.

Lemma getByIdOf_unfold (t : tableName) (ctx : context) (req : request) (w : world) :
  getByIdOf t ctx req w =
    sendLookup (getRow t (notFoundOf t) (jsInt 1) (JStr (params_id req)) w)
      [mkCall OpGet t (jsInt 1)].
Proof. now destruct t. Qed.

(** X16. The routes GET /api/temperatures/:id, /api/switches/:id and
    /api/lights/:id. When the store answers: 200 with the first row that
    has the id of the path and the user 1, or 404 with the not-found
    message of the family when there is none. When the store fails: 500
    with no body. In every case no table changes. *)
Theorem get_by_id_route_answers (t : tableName) (ctx : context) (req : request)
    (w : world) :
  (hd None (faults w) = None ->
   (forall r, find (whereIdUser (JStr (params_id req)) (jsInt 1)) (rowsOf t w) = Some r ->
      sent (getByIdOf t ctx req w) = mkResponse 200 (JsonRow r)) /\
   (find (whereIdUser (JStr (params_id req)) (jsInt 1)) (rowsOf t w) = None ->
      sent (getByIdOf t ctx req w) = mkResponse 404 (JsonError (notFoundOf t)))) /\
  (forall e, hd None (faults w) = Some e ->
     sent (getByIdOf t ctx req w) = mkResponse 500 NoBody) /\
  (forall t', rowsOf t' (after (getByIdOf t ctx req w)) = rowsOf t' w).
Proof.
  rewrite getByIdOf_unfold.
  destruct (sendLookup_sent
              (getRow t (notFoundOf t) (jsInt 1) (JStr (params_id req)) w)
              [mkCall OpGet t (jsInt 1)]) as [Hs Ha].
  rewrite Hs, Ha. split; [|split].
  - intros Hq. rewrite getRow_resolves by assumption. simpl.
    split; [intros r Hf | intros Hf]; now rewrite Hf.
  - intros e He. now rewrite (getRow_rejects _ _ _ _ _ e).
  - intros t'. apply getRow_rows.
Qed.

(** X17. What the GET routes show belongs to user 1: a record sent by a
    route that reads one record is a row of the table of the route whose
    user is 1, and every record sent by GET /api/temperatures is a
    temperature of user 1. No GET route changes a table. *)
Theorem get_routes_show_user_1_only (rt : route) (ctx : context) (req : request)
    (w : world) :
  isGet rt = true ->
  (forall r, body (sent (handle rt ctx req w)) = JsonRow r ->
     row_user r = 1 /\ In r (rowsOf (familyOf rt) w)) /\
  (forall l x, body (sent (handle rt ctx req w)) = JsonRows l -> In x l ->
     listed_user x = 1) /\
  (forall t', rowsOf t' (after (handle rt ctx req w)) = rowsOf t' w).
Proof.
  intros Hget.
  assert (Hlookup : forall (t : tableName) (p : outcome lookup * world) call,
            (forall r, fst p = Resolved (Found r) ->
               row_user r = 1 /\ In r (rowsOf t w)) ->
            (forall r, body (sent (sendLookup p call)) = JsonRow r ->
               row_user r = 1 /\ In r (rowsOf t w)) /\
            (forall l x, body (sent (sendLookup p call)) = JsonRows l -> In x l ->
               listed_user x = 1)).
  { intros t p call Hp. destruct (sendLookup_sent p call) as [Hs _]. rewrite Hs.
    destruct p as [[[r0|e]|e] w']; simpl in *; split; try discriminate.
    intros r [= <-]. now apply Hp. }
  assert (Hrow : forall t id r,
            fst (getRow t (notFoundOf t) (jsInt 1) id w) = Resolved (Found r) ->
            row_user r = 1 /\ In r (rowsOf t w)).
  { intros t id r H. apply getRow_scoped in H. destruct H as [Hin [_ Hu]].
    simpl in Hu. injection Hu as Hu. now split. }
  destruct rt; try discriminate Hget; simpl handle; simpl familyOf.
  - (* GET /api/temperatures *)
    unfold getTemperatures, listTemperatures.
    destruct (listRows Temperatures (jsInt 1) w) as [[l|e] w'] eqn:E; simpl.
    + repeat split; try discriminate.
      * intros l0 x [= <-] Hin.
        pose proof (listRows_scoped Temperatures (jsInt 1) w l) as Hsc.
        rewrite E in Hsc. specialize (Hsc eq_refl x Hin). simpl in Hsc.
        now injection Hsc.
      * intros t'. pose proof (listRows_rows Temperatures t' (jsInt 1) w) as Hr.
        now rewrite E in Hr.
    + repeat split; try discriminate.
      intros t'. pose proof (listRows_rows Temperatures t' (jsInt 1) w) as Hr.
      now rewrite E in Hr.
  - (* GET /api/temperatures/last *)
    unfold getTemperaturesLast.
    destruct (Hlookup Temperatures (getLastTemperature (jsInt 1) w)
                [mkCall OpGetLast Temperatures (jsInt 1)]) as [H1 H2].
    { intros r H.
      destruct (hd None (faults w)) as [e|] eqn:Hq.
      - rewrite (getLastTemperature_rejects _ _ e) in H by assumption. discriminate.
      - rewrite getLastTemperature_resolves in H by assumption. simpl in H.
        destruct (hd_error _) as [h|] eqn:Hhd; [|discriminate].
        injection H as ->. apply orderByDateDesc_head in Hhd.
        destruct Hhd as [Hin _]. apply filter_In in Hin. destruct Hin as [Hin Hu].
        rewrite whereUser_jsInt in Hu. apply Z.eqb_eq in Hu. now split. }
    split; [exact H1|]. split; [exact H2|].
    intros t'. destruct (sendLookup_sent (getLastTemperature (jsInt 1) w)
                           [mkCall OpGetLast Temperatures (jsInt 1)]) as [_ Ha].
    rewrite Ha. apply getLastTemperature_rows.
  - (* GET /api/temperatures/:id *)
    unfold getTemperaturesId, getTemperature.
    destruct (Hlookup Temperatures
                (getRow Temperatures temperatureNotFound (jsInt 1) (JStr (params_id req)) w)
                [mkCall OpGet Temperatures (jsInt 1)]) as [H1 H2].
    { intros r. apply (Hrow Temperatures). }
    split; [exact H1|]. split; [exact H2|].
    intros t'. destruct (sendLookup_sent
                 (getRow Temperatures temperatureNotFound (jsInt 1) (JStr (params_id req)) w)
                 [mkCall OpGet Temperatures (jsInt 1)]) as [_ Ha].
    rewrite Ha. apply getRow_rows.
  - (* GET /api/switches/:id *)
    unfold getSwitchesId, getSwitch.
    destruct (Hlookup Switches
                (getRow Switches switchNotFound (jsInt 1) (JStr (params_id req)) w)
                [mkCall OpGet Switches (jsInt 1)]) as [H1 H2].
    { intros r. apply (Hrow Switches). }
    split; [exact H1|]. split; [exact H2|].
    intros t'. destruct (sendLookup_sent
                 (getRow Switches switchNotFound (jsInt 1) (JStr (params_id req)) w)
                 [mkCall OpGet Switches (jsInt 1)]) as [_ Ha].
    rewrite Ha. apply getRow_rows.
  - (* GET /api/lights/:id *)
    unfold getLightsId, getLight.
    destruct (Hlookup Lights
                (getRow Lights lightNotFound (jsInt 1) (JStr (params_id req)) w)
                [mkCall OpGet Lights (jsInt 1)]) as [H1 H2].
    { intros r. apply (Hrow Lights). }
    split; [exact H1|]. split; [exact H2|].
    intros t'. destruct (sendLookup_sent
                 (getRow Lights lightNotFound (jsInt 1) (JStr (params_id req)) w)
                 [mkCall OpGet Lights (jsInt 1)]) as [_ Ha].
    rewrite Ha. apply getRow_rows.
Qed.

Lemma colEq_sqlInt (c : Z) (p : jsval) (z : Z) :
  sqlInt p = Some z -> colEq c p = (c =? z).
Proof. intros H. unfold colEq. now rewrite H. Qed.

Lemma updated_ext (date : string) (value : jsval) (f g : row -> bool) (rs : list row) :
  (forall r, f r = g r) -> updated date value f rs = updated date value g rs.
Proof.
  intros H. unfold updated. apply map_ext. intros r. now rewrite H.
Qed.

Lemma find_updated (date : string) (value : jsval) (id user : jsval) (rs : list row) :
  find (whereIdUser id user) (updated date value (whereIdUser id user) rs) =
    option_map (setDateValue date value) (find (whereIdUser id user) rs).
Proof.
  induction rs as [|x rs IH]; [reflexivity|]. simpl.
  destruct (whereIdUser id user x) eqn:E.
  - change (whereIdUser id user (setDateValue date value x))
      with (whereIdUser id user x). now rewrite E.
  - now rewrite E.
Qed.

(** The PUT routes are [putRecord] on the DAO of their family. *)
Lemma putRecord_found (t : tableName) (notFound : string) (valueRule : rule) (word : string)
    (ctx : context) (req : request) (w : world) (r : row) :
  validationResult [check ["id"] isInt; check ["value"] valueRule] req = [] ->
  strictNeqNum (body_id req) (Number (params_id req)) = false ->
  hd None (faults w) = None ->
  find (whereIdUser (body_id req) (body_user req)) (rowsOf t w) = Some r ->
  putRecord t valueRule word (getRow t notFound) (updateRow t notFound)
      ctx req w =
    let s := setDateValue (now ctx) (body_value req) r in
    let both := [mkCall OpGet t (body_user req); mkCall OpUpdate t (body_user req)] in
    match updateRow t notFound (body_user req) (jsInt (row_id r)) s (advance w) with
    | (Resolved result, w2) => mkHandled (mkResponse 200 (jsonOfLookup result)) w2 both
    | (Rejected _, w2) =>
        mkHandled (mkResponse 503 (JsonError
          ("Database error during the update of " ++ word ++ " " ++ params_id req)%string))
          w2 both
    end.
Proof.
  intros Hv Hne Hq Hfind. unfold putRecord. rewrite Hv, Hne.
  rewrite getRow_resolves by assumption. rewrite Hfind. reflexivity.
Qed.

Lemma putRecord_not_found (t : tableName) (notFound : string) (valueRule : rule) (word : string)
    (ctx : context) (req : request) (w : world) :
  validationResult [check ["id"] isInt; check ["value"] valueRule] req = [] ->
  strictNeqNum (body_id req) (Number (params_id req)) = false ->
  hd None (faults w) = None ->
  find (whereIdUser (body_id req) (body_user req)) (rowsOf t w) = None ->
  putRecord t valueRule word (getRow t notFound) (updateRow t notFound)
      ctx req w =
    mkHandled (mkResponse 404 (JsonError notFound)) (advance w)
      [mkCall OpGet t (body_user req)].
Proof.
  intros Hv Hne Hq Hfind. unfold putRecord. rewrite Hv, Hne.
  rewrite getRow_resolves by assumption. rewrite Hfind. reflexivity.
Qed.

Lemma putRecord_get_fails (t : tableName) (notFound : string) (valueRule : rule) (word : string)
    (ctx : context) (req : request) (w : world) (e : dberr) :
  validationResult [check ["id"] isInt; check ["value"] valueRule] req = [] ->
  strictNeqNum (body_id req) (Number (params_id req)) = false ->
  hd None (faults w) = Some e ->
  putRecord t valueRule word (getRow t notFound) (updateRow t notFound)
      ctx req w =
    mkHandled (mkResponse 503 (JsonError
        ("Database error during the update of " ++ word ++ " " ++ params_id req)%string))
      (advance w) [mkCall OpGet t (body_user req)].
Proof.
  intros Hv Hne Hq. unfold putRecord. rewrite Hv, Hne.
  rewrite (getRow_rejects _ _ _ _ _ e) by assumption. reflexivity.
Qed.

(** What the update of a PUT route resolves with, once the get has found
    [r]: the read-back finds [r] rewritten. *)
Lemma put_update_result (t : tableName) (notFound : string) (date : string) (value : jsval)
    (id user : jsval) (r : row) (w1 : world) :
  find (whereIdUser id user) (rowsOf t w1) = Some r ->
  quiet 2 (faults w1) = true ->
  updateRow t notFound user (jsInt (row_id r)) (setDateValue date value r) w1 =
    (Resolved (Found (setDateValue date value r)),
     advance (setRows t (updated date value (whereIdUser id user) (rowsOf t w1))
                (advance w1))).
Proof.
  intros Hfind Hq. apply quiet_S in Hq. destruct Hq as [H1 Hq].
  apply quiet_S in Hq. destruct Hq as [H2 _].
  pose proof (find_some _ _ Hfind) as [Hin Hw].
  unfold whereIdUser in Hw. apply andb_prop in Hw. destruct Hw as [Hi Hu].
  apply colEq_true in Hi, Hu.
  assert (E1 : forall x, whereIdUser (jsInt (row_id r)) user x = whereIdUser id user x).
  { intros x. unfold whereIdUser. now rewrite (colEq_sqlInt _ id (row_id r)), colEq_jsInt. }
  assert (E2 : forall x, whereIdUser (jsInt (row_id r)) (jsInt (row_user r)) x
                         = whereIdUser id user x).
  { intros x. unfold whereIdUser.
    now rewrite (colEq_sqlInt _ id (row_id r)), (colEq_sqlInt _ user (row_user r)),
      !colEq_jsInt. }
  rewrite updateRow_resolves by assumption.
  rewrite getRow_resolves by now rewrite faults_setRows, faults_advance.
  rewrite rowsOf_setRows. cbn [row_user row_date row_value setDateValue].
  rewrite (updated_ext _ _ _ _ _ E1).
  rewrite (find_ext _ (whereIdUser id user)) by (intros; apply E2).
  now rewrite find_updated, Hfind.
Qed.

(** X18. A PUT on /api/switches/:id or /api/lights/:id whose body passes
    validation, has the id of the path and names, by its id and user, a
    record of the table, when the store does not fail: the answer is 200
    with that record carrying the clock of the server and the value of
    the body, its id and user as they were; the rows of the table with
    that id and user are rewritten and nothing else changes. This holds
    whatever the session: any caller can rewrite the record of any user
    by naming that user in the body. *)
Theorem put_rewrites_the_record (ctx : context) (req : request) (w : world) (r : row) :
  strictNeqNum (body_id req) (Number (params_id req)) = false ->
  quiet 3 (faults w) = true ->
  (validationResult [check ["id"] isInt; check ["value"] isBoolean] req = [] ->
   find (whereIdUser (body_id req) (body_user req)) (switches w) = Some r ->
   sent (putSwitchesId ctx req w)
     = mkResponse 200 (JsonRow (setDateValue (now ctx) (body_value req) r)) /\
   switches (after (putSwitchesId ctx req w))
     = updated (now ctx) (body_value req) (whereIdUser (body_id req) (body_user req))
         (switches w) /\
   temperatures (after (putSwitchesId ctx req w)) = temperatures w /\
   lights (after (putSwitchesId ctx req w)) = lights w) /\
  (validationResult [check ["id"] isInt; check ["value"] isInt] req = [] ->
   find (whereIdUser (body_id req) (body_user req)) (lights w) = Some r ->
   sent (putLightsId ctx req w)
     = mkResponse 200 (JsonRow (setDateValue (now ctx) (body_value req) r)) /\
   lights (after (putLightsId ctx req w))
     = updated (now ctx) (body_value req) (whereIdUser (body_id req) (body_user req))
         (lights w) /\
   temperatures (after (putLightsId ctx req w)) = temperatures w /\
   switches (after (putLightsId ctx req w)) = switches w).
Proof.
  intros Hne Hq. apply quiet_S in Hq. destruct Hq as [H1 Hq].
  split; intros Hv Hfind.
  - unfold putSwitchesId, getSwitch, updateSwitch.
    rewrite (putRecord_found Switches switchNotFound isBoolean "switch" ctx req w r)
      by assumption.
    cbv zeta.
    rewrite (put_update_result Switches switchNotFound (now ctx) (body_value req)
               (body_id req) (body_user req) r (advance w)) by assumption.
    now repeat split.
  - unfold putLightsId, getLight, updateLight.
    rewrite (putRecord_found Lights lightNotFound isInt "light" ctx req w r)
      by assumption.
    cbv zeta.
    rewrite (put_update_result Lights lightNotFound (now ctx) (body_value req)
               (body_id req) (body_user req) r (advance w)) by assumption.
    now repeat split.
Qed.

(** X19. A PUT whose body passes validation and has the id of the path
    but names no record of the table (no row has both the id and the
    user of the body), when the store answers: 404 with the not-found
    message of the family; only the get was invoked and no table
    changes. *)
Theorem put_of_unknown_record_is_404 (ctx : context) (req : request) (w : world) :
  strictNeqNum (body_id req) (Number (params_id req)) = false ->
  hd None (faults w) = None ->
  (validationResult [check ["id"] isInt; check ["value"] isBoolean] req = [] ->
   find (whereIdUser (body_id req) (body_user req)) (switches w) = None ->
   sent (putSwitchesId ctx req w) = mkResponse 404 (JsonError "Switch not found.") /\
   calls (putSwitchesId ctx req w) = [mkCall OpGet Switches (body_user req)] /\
   forall t, rowsOf t (after (putSwitchesId ctx req w)) = rowsOf t w) /\
  (validationResult [check ["id"] isInt; check ["value"] isInt] req = [] ->
   find (whereIdUser (body_id req) (body_user req)) (lights w) = None ->
   sent (putLightsId ctx req w) = mkResponse 404 (JsonError "Light not found.") /\
   calls (putLightsId ctx req w) = [mkCall OpGet Lights (body_user req)] /\
   forall t, rowsOf t (after (putLightsId ctx req w)) = rowsOf t w).
Proof.
  intros Hne Hq. split; intros Hv Hfind.
  - unfold putSwitchesId, getSwitch, updateSwitch.
    rewrite (putRecord_not_found Switches switchNotFound isBoolean "switch" ctx req w)
      by assumption.
    now repeat split.
  - unfold putLightsId, getLight, updateLight.
    rewrite (putRecord_not_found Lights lightNotFound isInt "light" ctx req w)
      by assumption.
    now repeat split.
Qed.

Lemma putRecord_update_fails (t : tableName) (notFound : string) (valueRule : rule)
    (word : string) (ctx : context) (req : request) (w : world) (r : row) (e : dberr) :
  validationResult [check ["id"] isInt; check ["value"] valueRule] req = [] ->
  strictNeqNum (body_id req) (Number (params_id req)) = false ->
  hd None (faults w) = None ->
  find (whereIdUser (body_id req) (body_user req)) (rowsOf t w) = Some r ->
  hd None (tl (faults w)) = Some e ->
  let h := putRecord t valueRule word (getRow t notFound) (updateRow t notFound)
             ctx req w in
  sent h = mkResponse 503 (JsonError
             ("Database error during the update of " ++ word ++ " " ++ params_id req)%string) /\
  forall t', rowsOf t' (after h) = rowsOf t' w.
Proof.
  intros Hv Hne H1 Hfind H2 h. subst h.
  rewrite (putRecord_found t notFound valueRule word ctx req w r) by assumption.
  cbv zeta. rewrite (updateRow_rejects _ _ _ _ _ _ e) by assumption.
  now split.
Qed.

Lemma putRecord_read_back_fails (t : tableName) (notFound : string) (valueRule : rule)
    (word : string) (ctx : context) (req : request) (w : world) (r : row) (e : dberr) :
  validationResult [check ["id"] isInt; check ["value"] valueRule] req = [] ->
  strictNeqNum (body_id req) (Number (params_id req)) = false ->
  quiet 2 (faults w) = true ->
  find (whereIdUser (body_id req) (body_user req)) (rowsOf t w) = Some r ->
  hd None (tl (tl (faults w))) = Some e ->
  let h := putRecord t valueRule word (getRow t notFound) (updateRow t notFound)
             ctx req w in
  sent h = mkResponse 503 (JsonError
             ("Database error during the update of " ++ word ++ " " ++ params_id req)%string) /\
  rowsOf t (after h) =
    updated (now ctx) (body_value req) (whereIdUser (jsInt (row_id r)) (body_user req))
      (rowsOf t w).
Proof.
  intros Hv Hne Hq Hfind H3 h. subst h.
  apply quiet_S in Hq. destruct Hq as [H1 Hq]. apply quiet_S in Hq. destruct Hq as [H2 _].
  rewrite (putRecord_found t notFound valueRule word ctx req w r) by assumption.
  cbv zeta. rewrite updateRow_resolves by assumption.
  rewrite (getRow_rejects _ _ _ _ _ e) by now rewrite faults_setRows, faults_advance.
  split; [reflexivity|]. cbn [after row_date row_value setDateValue row_id].
  now rewrite rowsOf_advance, rowsOf_setRows.
Qed.

(** X20. A PUT on /api/switches/:id whose body passes validation and has
    the id of the path is answered 503, with the id of the path in the
    message, whenever the store fails. If the failure is in the first get
    or in the UPDATE, no table changes; if it is in the read-back after
    the UPDATE, the switches have been rewritten all the same.
    PUT /api/lights/:id is the same text on the lights. *)
Theorem put_answers_503_when_the_store_fails (ctx : context) (req : request)
    (w : world) (e : dberr) :
  validationResult [check ["id"] isInt; check ["value"] isBoolean] req = [] ->
  strictNeqNum (body_id req) (Number (params_id req)) = false ->
  (hd None (faults w) = Some e ->
     sent (putSwitchesId ctx req w) = mkResponse 503 (JsonError
       ("Database error during the update of switch " ++ params_id req)%string) /\
     forall t, rowsOf t (after (putSwitchesId ctx req w)) = rowsOf t w) /\
  (forall r,
     hd None (faults w) = None ->
     find (whereIdUser (body_id req) (body_user req)) (switches w) = Some r ->
     hd None (tl (faults w)) = Some e ->
     sent (putSwitchesId ctx req w) = mkResponse 503 (JsonError
       ("Database error during the update of switch " ++ params_id req)%string) /\
     forall t, rowsOf t (after (putSwitchesId ctx req w)) = rowsOf t w) /\
  (forall r,
     quiet 2 (faults w) = true ->
     find (whereIdUser (body_id req) (body_user req)) (switches w) = Some r ->
     hd None (tl (tl (faults w))) = Some e ->
     sent (putSwitchesId ctx req w) = mkResponse 503 (JsonError
       ("Database error during the update of switch " ++ params_id req)%string) /\
     switches (after (putSwitchesId ctx req w)) =
       updated (now ctx) (body_value req)
         (whereIdUser (jsInt (row_id r)) (body_user req)) (switches w)).
Proof.
  intros Hv Hne. unfold putSwitchesId, getSwitch, updateSwitch. split; [|split].
  - intros Hq.
    rewrite (putRecord_get_fails Switches switchNotFound isBoolean "switch" ctx req w e)
      by assumption.
    now split.
  - intros r H1 Hfind H2.
    now apply (putRecord_update_fails Switches switchNotFound isBoolean "switch"
                 ctx req w r e).
  - intros r Hq Hfind H3.
    now apply (putRecord_read_back_fails Switches switchNotFound isBoolean "switch"
                 ctx req w r e).
Qed.

Lemma createRow_other_tables (t t' : tableName) (notFound : string) (d : draft)
    (w : world) :
  t <> t' -> rowsOf t' (snd (createRow t notFound d w)) = rowsOf t' w.
Proof.
  intros Hne. destruct (hd None (faults w)) as [e|] eqn:Hq.
  - rewrite (createRow_rejects _ _ _ _ e) by assumption. apply rowsOf_advance.
  - rewrite createRow_resolves by assumption.
    now rewrite getRow_rows, rowsOf_setRows_other, rowsOf_advance.
Qed.

Lemma updateRow_other_tables (t t' : tableName) (notFound : string) (user id : jsval)
    (s : row) (w : world) :
  t <> t' -> rowsOf t' (snd (updateRow t notFound user id s w)) = rowsOf t' w.
Proof.
  intros Hne. destruct (hd None (faults w)) as [e|] eqn:Hq.
  - rewrite (updateRow_rejects _ _ _ _ _ _ e) by assumption. apply rowsOf_advance.
  - now apply updateRow_frame.
Qed.

Lemma deleteRow_other_tables (t t' : tableName) (user id : jsval) (w : world) :
  t <> t' -> rowsOf t' (snd (deleteRow t user id w)) = rowsOf t' w.
Proof.
  intros Hne. destruct (hd None (faults w)) as [e|] eqn:Hq.
  - rewrite (deleteRow_rejects _ _ _ _ e) by assumption. apply rowsOf_advance.
  - rewrite deleteRow_resolves by assumption. simpl.
    now rewrite rowsOf_setRows_other, rowsOf_advance.
Qed.

Lemma sendLookup_after (p : outcome lookup * world) (call : list daoCall) :
  after (sendLookup p call) = snd p.
Proof. now destruct p as [[[r|e]|e] w']. Qed.

Lemma putRecord_other_tables (t t' : tableName) (notFound : string) (valueRule : rule)
    (word : string) (ctx : context) (req : request) (w : world) :
  t <> t' ->
  rowsOf t' (after (putRecord t valueRule word (getRow t notFound) (updateRow t notFound)
                      ctx req w)) = rowsOf t' w.
Proof.
  intros Hne. unfold putRecord.
  destruct (validationResult _ req); [|reflexivity].
  destruct (strictNeqNum _ _); [reflexivity|].
  pose proof (getRow_rows t t' notFound (body_user req) (body_id req) w) as Hw1.
  destruct (getRow t notFound (body_user req) (body_id req) w) as [[[r|e]|e] w1];
    simpl in Hw1; try exact Hw1.
  pose proof (updateRow_other_tables t t' notFound (body_user req) (jsInt (row_id r))
                (setDateValue (now ctx) (body_value req) r) w1 Hne) as Hw2.
  cbv zeta. cbn [row_id setDateValue] in *.
  destruct (updateRow t notFound (body_user req) (jsInt (row_id r))
              (setDateValue (now ctx) (body_value req) r) w1) as [[res|e] w2];
    simpl in *; congruence.
Qed.

(** X21. A route changes no table but the one of its family: the
    temperature routes leave switches and lights alone, the switch
    routes leave temperatures and lights alone, and so on, whatever the
    request and whether the store answers or fails. *)
Theorem routes_touch_only_their_table (rt : route) (ctx : context) (req : request)
    (w : world) (t' : tableName) :
  familyOf rt <> t' ->
  rowsOf t' (after (handle rt ctx req w)) = rowsOf t' w.
Proof.
  intros Hne. destruct rt; simpl handle; simpl familyOf in Hne.
  - unfold getTemperatures, listTemperatures.
    pose proof (listRows_rows Temperatures t' (jsInt 1) w) as H.
    now destruct (listRows Temperatures (jsInt 1) w) as [[l|e] w1].
  - unfold getTemperaturesLast. rewrite sendLookup_after.
    apply getLastTemperature_rows.
  - unfold getTemperaturesId. rewrite sendLookup_after. apply getRow_rows.
  - unfold postTemperatures.
    destruct (validationResult _ req); [|reflexivity]. unfold createTemperature.
    pose proof (createRow_other_tables Temperatures t' temperatureNotFound
                  (mkDraft (now ctx) (body_value req) 1) w Hne) as H.
    now destruct (createRow Temperatures temperatureNotFound _ w) as [[l|e] w1].
  - unfold deleteTemperaturesId, deleteTemperature.
    pose proof (deleteRow_other_tables Temperatures t' (jsInt 1) (JStr (params_id req))
                  w Hne) as H.
    now destruct (deleteRow Temperatures (jsInt 1) (JStr (params_id req)) w)
      as [[l|e] w1].
  - unfold getSwitchesId. rewrite sendLookup_after. apply getRow_rows.
  - now apply putRecord_other_tables.
  - unfold getLightsId. rewrite sendLookup_after. apply getRow_rows.
  - now apply putRecord_other_tables.
Qed.

(** X22. POST /api/temperatures then GET /api/temperatures/last. When
    the body passes validation, the store does not fail and the clock of
    the server is later than the date of every temperature of user 1, the
    POST answers 200 with the new record and a GET of the last
    temperature right after answers 200 with that same record. *)
Theorem post_then_last_temperature (ctx ctx' : context) (req req' : request) (w : world) :
  validationResult [check ["value"] isFloat] req = [] ->
  quiet 3 (faults w) = true ->
  (forall x, In x (temperatures w) -> row_user x = 1 ->
             String.ltb (row_date x) (now ctx) = true) ->
  exists r,
    sent (postTemperatures ctx req w) = mkResponse 200 (JsonRow r) /\
    sent (getTemperaturesLast ctx' req' (after (postTemperatures ctx req w)))
      = mkResponse 200 (JsonRow r).
Proof.
  intros Hv Hq Hlater. apply quiet_3 in Hq. destruct Hq as [Hq2 [_ [_ H3]]].
  set (r := mkRow (assignedId (temperatures w)) (now ctx) (body_value req) 1).
  exists r. unfold postTemperatures. rewrite Hv. unfold createTemperature.
  rewrite (createRow_appends Temperatures temperatureNotFound _ w Hq2).
  cbn -[assignedId]. split; [reflexivity|].
  unfold getTemperaturesLast.
  rewrite (last_after_append 1 (temperatures w) r); try easy.
Qed.

(** * The user the routes ask the store for *)

Lemma sendLookup_row (p : outcome lookup * world) (call : list daoCall) :
  (forall r, body (sent (sendLookup p call)) = JsonRow r -> fst p = Resolved (Found r)) /\
  (forall l, body (sent (sendLookup p call)) <> JsonRows l).
Proof.
  destruct p as [[[r0|e]|e] w']; simpl; split; try discriminate.
  now intros r [= <-].
Qed.

Lemma getLastTemperature_scoped (user : jsval) (w : world) (r : row) :
  fst (getLastTemperature user w) = Resolved (Found r) ->
  sqlInt user = Some (row_user r).
Proof.
  destruct (hd None (faults w)) as [e|] eqn:Hq.
  - rewrite (getLastTemperature_rejects _ _ e) by assumption. discriminate.
  - rewrite getLastTemperature_resolves by assumption. simpl.
    destruct (hd_error _) as [h|] eqn:Hhd; [|discriminate].
    intros [= ->]. apply orderByDateDesc_head in Hhd. destruct Hhd as [Hin _].
    apply filter_In in Hin. destruct Hin as [_ Hu]. now apply colEq_true in Hu.
Qed.

Lemma createRow_scoped (t : tableName) (notFound : string) (d : draft) (w : world) (r : row) :
  fst (createRow t notFound d w) = Resolved (Found r) -> row_user r = draft_user d.
Proof.
  destruct (hd None (faults w)) as [e|] eqn:Hq.
  - rewrite (createRow_rejects _ _ _ _ e) by assumption. discriminate.
  - rewrite createRow_resolves by assumption. intros H.
    apply getRow_scoped in H. destruct H as [_ [_ Hu]]. simpl in Hu. now injection Hu.
Qed.

Lemma updateRow_scoped (t : tableName) (notFound : string) (user id : jsval) (s : row)
    (w : world) (r : row) :
  fst (updateRow t notFound user id s w) = Resolved (Found r) -> row_user r = row_user s.
Proof.
  destruct (hd None (faults w)) as [e|] eqn:Hq.
  - rewrite (updateRow_rejects _ _ _ _ _ _ e) by assumption. discriminate.
  - rewrite updateRow_resolves by assumption. intros H.
    apply getRow_scoped in H. destruct H as [_ [_ Hu]]. simpl in Hu. now injection Hu.
Qed.

Lemma putRecord_shows (t : tableName) (notFound : string) (valueRule : rule) (word : string)
    (ctx : context) (req : request) (w : world) :
  let h := putRecord t valueRule word (getRow t notFound) (updateRow t notFound)
             ctx req w in
  (forall r, body (sent h) = JsonRow r -> sqlInt (body_user req) = Some (row_user r)) /\
  (forall l, body (sent h) <> JsonRows l).
Proof.
  intros h. subst h. unfold putRecord.
  destruct (validationResult _ req); [|split; intros; discriminate].
  destruct (strictNeqNum _ _); [split; intros; discriminate|].
  pose proof (getRow_scoped t notFound (body_user req) (body_id req) w) as Hget.
  destruct (getRow t notFound (body_user req) (body_id req) w) as [[[r0|e]|e] w1];
    try (split; intros; discriminate).
  destruct (Hget r0 eq_refl) as [_ [_ Hu]]. cbv zeta.
  pose proof (updateRow_scoped t notFound (body_user req)
                (jsInt (row_id (setDateValue (now ctx) (body_value req) r0)))
                (setDateValue (now ctx) (body_value req) r0) w1) as Hupd.
  destruct (updateRow t notFound (body_user req) _ _ w1) as [[[r1|e]|e] w2];
    simpl; split; intros; try discriminate.
  match goal with H : JsonRow _ = JsonRow _ |- _ => injection H as <- end.
  now rewrite (Hupd r1 eq_refl).
Qed.

(** What a route sends comes from the rows of the user it asks the store
    for. *)
Lemma handle_shows_rows_of_its_user (rt : route) (ctx : context) (req : request)
    (w : world) :
  let asked := if isPut rt then body_user req else jsInt 1 in
  (forall r, body (sent (handle rt ctx req w)) = JsonRow r ->
     sqlInt asked = Some (row_user r)) /\
  (forall l x, body (sent (handle rt ctx req w)) = JsonRows l -> In x l ->
     sqlInt asked = Some (listed_user x)).
Proof.
  assert (Hlookup : forall (p : outcome lookup * world) call,
            (forall r, fst p = Resolved (Found r) -> sqlInt (jsInt 1) = Some (row_user r)) ->
            (forall r, body (sent (sendLookup p call)) = JsonRow r ->
               sqlInt (jsInt 1) = Some (row_user r)) /\
            (forall l x, body (sent (sendLookup p call)) = JsonRows l -> In x l ->
               sqlInt (jsInt 1) = Some (listed_user x))).
  { intros p call Hp. destruct (sendLookup_row p call) as [Hr Hl]. split.
    - intros r H. apply Hp. now apply Hr.
    - intros l x H. now elim (Hl l). }
  destruct rt; cbn [isPut handle].
  - unfold getTemperatures, listTemperatures.
    pose proof (listRows_scoped Temperatures (jsInt 1) w) as Hsc.
    destruct (listRows Temperatures (jsInt 1) w) as [[l|e] w']; simpl;
      split; try discriminate.
    intros l0 x [= <-] Hin. now apply (Hsc l eq_refl).
  - apply Hlookup. intros r. apply getLastTemperature_scoped.
  - apply Hlookup. intros r H. now apply getRow_scoped in H.
  - unfold postTemperatures.
    destruct (validationResult _ req); [|split; intros; discriminate].
    unfold createTemperature.
    pose proof (createRow_scoped Temperatures temperatureNotFound
                  (mkDraft (now ctx) (body_value req) 1) w) as Hc.
    destruct (createRow Temperatures temperatureNotFound _ w) as [[[r0|e]|e] w'];
      simpl; split; intros; try discriminate.
    match goal with H : JsonRow _ = JsonRow _ |- _ => injection H as <- end.
    now rewrite (Hc r0 eq_refl).
  - unfold deleteTemperaturesId.
    destruct (deleteTemperature _ _ w) as [[u|e] w']; simpl; split; intros; discriminate.
  - apply Hlookup. intros r H. now apply getRow_scoped in H.
  - destruct (putRecord_shows Switches switchNotFound isBoolean "switch" ctx req w)
      as [Hr Hl].
    split; [exact Hr | intros l x H; now elim (Hl l)].
  - apply Hlookup. intros r H. now apply getRow_scoped in H.
  - destruct (putRecord_shows Lights lightNotFound isInt "light" ctx req w)
      as [Hr Hl].
    split; [exact Hr | intros l x H; now elim (Hl l)].
Qed.

Lemma createRow_keeps_rows (t t' : tableName) (notFound : string) (d : draft)
    (w : world) (x : row) :
  In x (rowsOf t' w) -> In x (rowsOf t' (snd (createRow t notFound d w))).
Proof.
  intros Hin. destruct (tableName_eq_dec t t') as [<-|Hne].
  - destruct (hd None (faults w)) as [e|] eqn:Hq.
    + rewrite (createRow_rejects _ _ _ _ e) by assumption. simpl.
      now rewrite rowsOf_advance.
    + rewrite createRow_resolves by assumption.
      rewrite getRow_rows, rowsOf_setRows. apply in_or_app. now left.
  - now rewrite createRow_other_tables.
Qed.

Lemma deleteRow_keeps_outside (t t' : tableName) (user id : jsval) (w : world) (r : row) :
  In r (rowsOf t' w) -> sqlInt user <> Some (row_user r) ->
  In r (rowsOf t' (snd (deleteRow t user id w))).
Proof.
  intros Hin Hne. destruct (tableName_eq_dec t t') as [<-|Hd].
  - now apply deleteRow_keeps_others.
  - now rewrite deleteRow_other_tables.
Qed.

Lemma updateRow_keeps_outside (t t' : tableName) (notFound : string) (user id : jsval)
    (s : row) (w : world) (r : row) :
  In r (rowsOf t' w) -> sqlInt user <> Some (row_user r) ->
  In r (rowsOf t' (snd (updateRow t notFound user id s w))).
Proof.
  intros Hin Hne. destruct (tableName_eq_dec t t') as [<-|Hd].
  - now apply updateRow_keeps_others.
  - now rewrite updateRow_other_tables.
Qed.

Lemma putRecord_keeps_outside (t t' : tableName) (notFound : string) (valueRule : rule)
    (word : string) (ctx : context) (req : request) (w : world) (r : row) :
  In r (rowsOf t' w) -> sqlInt (body_user req) <> Some (row_user r) ->
  In r (rowsOf t' (after (putRecord t valueRule word (getRow t notFound)
                            (updateRow t notFound) ctx req w))).
Proof.
  intros Hin Hne. unfold putRecord.
  destruct (validationResult _ req); [|exact Hin].
  destruct (strictNeqNum _ _); [exact Hin|].
  pose proof (getRow_rows t t' notFound (body_user req) (body_id req) w) as Hw1.
  destruct (getRow t notFound (body_user req) (body_id req) w) as [[[r0|e]|e] w1];
    simpl in Hw1; try (simpl; now rewrite Hw1).
  cbv zeta.
  pose proof (updateRow_keeps_outside t t' notFound (body_user req)
                (jsInt (row_id (setDateValue (now ctx) (body_value req) r0)))
                (setDateValue (now ctx) (body_value req) r0) w1 r) as Hw2.
  rewrite Hw1 in Hw2. specialize (Hw2 Hin Hne).
  destruct (updateRow t notFound (body_user req) _ _ w1) as [[res|e] w2]; exact Hw2.
Qed.

(** A route leaves in place, unchanged, every row that does not belong
    to the user it asks the store for. *)
Lemma handle_keeps_rows_of_others (rt : route) (ctx : context) (req : request)
    (w : world) (t : tableName) (r : row) :
  In r (rowsOf t w) ->
  sqlInt (if isPut rt then body_user req else jsInt 1) <> Some (row_user r) ->
  In r (rowsOf t (after (handle rt ctx req w))).
Proof.
  intros Hin Hne. destruct rt; cbn [isPut handle] in *.
  - unfold getTemperatures, listTemperatures.
    pose proof (listRows_rows Temperatures t (jsInt 1) w) as H.
    destruct (listRows Temperatures (jsInt 1) w) as [[l|e] w1]; simpl in *; now rewrite H.
  - unfold getTemperaturesLast. now rewrite sendLookup_after, getLastTemperature_rows.
  - unfold getTemperaturesId, getTemperature. now rewrite sendLookup_after, getRow_rows.
  - unfold postTemperatures.
    destruct (validationResult _ req); [|exact Hin]. unfold createTemperature.
    pose proof (createRow_keeps_rows Temperatures t temperatureNotFound
                  (mkDraft (now ctx) (body_value req) 1) w r Hin) as H.
    now destruct (createRow Temperatures temperatureNotFound _ w) as [[l|e] w1].
  - unfold deleteTemperaturesId, deleteTemperature.
    pose proof (deleteRow_keeps_outside Temperatures t (jsInt 1) (JStr (params_id req))
                  w r Hin Hne) as H.
    now destruct (deleteRow Temperatures (jsInt 1) (JStr (params_id req)) w)
      as [[l|e] w1].
  - unfold getSwitchesId, getSwitch. now rewrite sendLookup_after, getRow_rows.
  - now apply putRecord_keeps_outside.
  - unfold getLightsId, getLight. now rewrite sendLookup_after, getRow_rows.
  - now apply putRecord_keeps_outside.
Qed.

(** C2, as the routes have it. No resource route enforces
    authentication: what a route does is the same whatever the session
    of the request, and it never answers 401. The GET, POST and DELETE
    routes ask the store for the fixed user 1: each is the route run on
    behalf of user 1. The two PUT routes ask it for the user field of the
    request body: with a body whose user is [u] they are the route run
    on behalf of [u]. Accordingly the records a route sends belong to
    the user it asks for, and the rows of everybody else are left
    unchanged in their tables; the user noted with each call is that
    user. *)
Theorem routes_skip_authentication (rt : route) (ctx : context) (req : request)
    (w : world) :
  (forall someone : option user,
     handle rt (mkContext someone (now ctx)) req w = handle rt ctx req w) /\
  status (sent (handle rt ctx req w)) <> 401 /\
  (forall c, In c (calls (handle rt ctx req w)) ->
     call_user c = if isPut rt then body_user req else jsInt 1) /\
  (isPut rt = false -> handle rt ctx req w = onBehalfOf 1 rt ctx req w) /\
  (isPut rt = true -> forall u, body_user req = jsInt u ->
     handle rt ctx req w = onBehalfOf u rt ctx req w) /\
  (forall r, body (sent (handle rt ctx req w)) = JsonRow r ->
     sqlInt (if isPut rt then body_user req else jsInt 1) = Some (row_user r)) /\
  (forall l x, body (sent (handle rt ctx req w)) = JsonRows l -> In x l ->
     sqlInt (if isPut rt then body_user req else jsInt 1) = Some (listed_user x)) /\
  (forall t r, In r (rowsOf t w) ->
     sqlInt (if isPut rt then body_user req else jsInt 1) <> Some (row_user r) ->
     In r (rowsOf t (after (handle rt ctx req w)))).
Proof.
  destruct (routes_open_and_noted rt ctx req w) as [H1 [H2 H3]].
  destruct (handle_shows_rows_of_its_user rt ctx req w) as [H6 H7].
  repeat split; try assumption.
  - intros Hp. destruct rt; try discriminate Hp; reflexivity.
  - intros Hp u Hu. destruct rt; try discriminate Hp; cbn [handle onBehalfOf];
      unfold putSwitchesId, putLightsId, putRecord, putRecordFor; now rewrite Hu.
  - intros t r. apply handle_keeps_rows_of_others.
Qed.

End Backend.

(** * The properties on the example platform *)

(** C1. Owner isolation fails in the read-back of update. User 1 updates
    switch 5, which belongs to user 2, handing over a record whose user
    field is 2: the UPDATE, scoped to user 1, writes nothing, and the call
    resolves with the row of user 2. updateLight does the same. *)
Theorem update_resolves_with_row_of_another_user :
  updateSwitch decimalCoerce (jsInt 1) (jsInt 5) kitchenOn house
    = (Resolved (Found kitchenSwitch), house) /\
  updateLight decimalCoerce (jsInt 1) (jsInt 8) hallDimmed house
    = (Resolved (Found (mkRow 8 "2024-05-01T12:00:00Z" (jsInt 10) 2)), house) /\
  row_user kitchenSwitch <> 1.
Proof.
  repeat split; discriminate.
Qed.

(** C2, counterexample. Not every route asks the store for user 1:
    PUT /api/switches/5 with body [{id: 5, user: 2, value: true}]
    rewrites the switch of user 2 and answers 200 with it, where the
    route run on behalf of user 1 answers 404 and writes nothing. *)
Lemma put_route_passes_body_user :
  sent (handle decimalCoerce bodyValidation decimalNumber PUT_switches_id
          morning putKitchen house) = mkResponse 200 (JsonRow kitchenOn) /\
  row_user kitchenOn <> 1 /\
  In kitchenOn (switches (after (handle decimalCoerce bodyValidation decimalNumber
                                   PUT_switches_id morning putKitchen house))) /\
  sent (onBehalfOf decimalCoerce bodyValidation decimalNumber 1 PUT_switches_id
          morning putKitchen house) = mkResponse 404 (JsonError "Switch not found.") /\
  handle decimalCoerce bodyValidation decimalNumber PUT_switches_id morning putKitchen house
    <> onBehalfOf decimalCoerce bodyValidation decimalNumber 1 PUT_switches_id
         morning putKitchen house.
Proof.
  split; [reflexivity|]. split; [discriminate|]. split; [right; left; reflexivity|].
  split; [reflexivity|]. discriminate.
Qed.

Lemma routes_skip_authentication_witness :
  handle decimalCoerce bodyValidation decimalNumber GET_switches_id morning pathFour house
    = onBehalfOf decimalCoerce bodyValidation decimalNumber 1 GET_switches_id
        morning pathFour house /\
  handle decimalCoerce bodyValidation decimalNumber PUT_switches_id morning putKitchen house
    = onBehalfOf decimalCoerce bodyValidation decimalNumber 2 PUT_switches_id
        morning putKitchen house /\
  sqlInt decimalCoerce (jsInt 2) = Some (row_user kitchenOn) /\
  In (mkRow 3 "2024-05-02T08:00:00Z" (jsInt 19) 2)
     (temperatures (after (handle decimalCoerce bodyValidation decimalNumber
                             DELETE_temperatures_id morning pathThree house))).
Proof.
  destruct (routes_skip_authentication decimalCoerce bodyValidation decimalNumber
              GET_switches_id morning pathFour house) as [_ [_ [_ [Hget _]]]].
  destruct (routes_skip_authentication decimalCoerce bodyValidation decimalNumber
              PUT_switches_id morning putKitchen house)
    as [_ [_ [_ [_ [Hput [Hrow _]]]]]].
  destruct (routes_skip_authentication decimalCoerce bodyValidation decimalNumber
              DELETE_temperatures_id morning pathThree house)
    as [_ [_ [_ [_ [_ [_ [_ Hkeep]]]]]]].
  split; [|split; [|split]].
  - apply Hget. reflexivity.
  - apply (Hput eq_refl 2). reflexivity.
  - apply (Hrow kitchenOn). reflexivity.
  - apply (Hkeep Temperatures (mkRow 3 "2024-05-02T08:00:00Z" (jsInt 19) 2)).
    + right; right; left; reflexivity.
    + discriminate.
Defined.

Lemma update_unmatched_resolves_with_get_witness :
  updateSwitch decimalCoerce (jsInt 1) (jsInt 5) kitchenOn house
    = getSwitch decimalCoerce (jsInt 2) (jsInt 5) (advance house) /\
  updateLight decimalCoerce (jsInt 1) (jsInt 8) hallDimmed house
    = getLight decimalCoerce (jsInt 2) (jsInt 8) (advance house).
Proof.
  split.
  - apply (proj1 (update_unmatched_resolves_with_get decimalCoerce
                    (jsInt 1) (jsInt 5) kitchenOn house eq_refl)).
    intros r [<-|[<-|[]]]; reflexivity.
  - apply (proj2 (update_unmatched_resolves_with_get decimalCoerce
                    (jsInt 1) (jsInt 8) hallDimmed house eq_refl)).
    intros r [<-|[<-|[]]]; reflexivity.
Defined.

Lemma update_changes_date_and_value_only_witness :
  (temperatures (snd (updateSwitch decimalCoerce (jsInt 2) (jsInt 5) kitchenOn house))
     = temperatures house /\
   lights (snd (updateSwitch decimalCoerce (jsInt 2) (jsInt 5) kitchenOn house))
     = lights house) /\
  (temperatures (snd (updateLight decimalCoerce (jsInt 2) (jsInt 8) hallDimmed house))
     = temperatures house /\
   switches (snd (updateLight decimalCoerce (jsInt 2) (jsInt 8) hallDimmed house))
     = switches house).
Proof.
  split.
  - apply (proj1 (update_changes_date_and_value_only decimalCoerce
                    (jsInt 2) (jsInt 5) kitchenOn house eq_refl) kitchenSwitch).
    + right; left; reflexivity.
    + reflexivity.
  - apply (proj2 (update_changes_date_and_value_only decimalCoerce
                    (jsInt 2) (jsInt 8) hallDimmed house eq_refl)
             (mkRow 8 "2024-05-01T12:00:00Z" (jsInt 10) 2)).
    + right; left; reflexivity.
    + reflexivity.
Defined.

Lemma create_round_trip_witness :
  (exists r, fst (createTemperature decimalCoerce twentyDegrees house) = Resolved (Found r) /\
             row_value r = jsInt 20 /\ row_user r = 1) /\
  fst (createTemperature decimalCoerce twentyDegrees lockedHouse)
    = Rejected "Error: SQLITE_BUSY: database is locked".
Proof.
  split.
  - destruct (proj1 (create_round_trip decimalCoerce Temperatures twentyDegrees house)
                eq_refl) as [r [H1 [_ [H2 [H3 _]]]]].
    exists r. repeat split; assumption.
  - apply (proj2 (create_round_trip decimalCoerce Temperatures twentyDegrees lockedHouse)
             "Error: SQLITE_BUSY: database is locked" eq_refl).
Defined.

Lemma delete_then_get_not_found_witness :
  fst (getSwitch decimalCoerce (jsInt 2) (JStr "5")
         (snd (deleteSwitch decimalCoerce (jsInt 2) (JStr "5") house)))
    = Resolved (NotFound "Switch not found.") /\
  fst (deleteLight decimalCoerce (jsInt 1) (JStr "99") house) = Resolved tt.
Proof.
  split.
  - apply (delete_then_get_not_found decimalCoerce Switches (jsInt 2) (JStr "5") house
             eq_refl).
  - apply (delete_then_get_not_found decimalCoerce Lights (jsInt 1) (JStr "99") house
             eq_refl).
Defined.

Lemma last_temperature_is_latest_witness :
  (exists r, fst (getLastTemperature decimalCoerce (jsInt 1) house) = Resolved (Found r) /\
             String.leb "2024-05-01T08:00:00Z" (row_date r) = true) /\
  fst (getLastTemperature decimalCoerce (jsInt 3) house)
    = Resolved (NotFound "There is no temperature for this sensor!") /\
  sent (getTemperaturesLast decimalCoerce morning putKitchen emptyHouse)
    = mkResponse 404 (JsonError "There is no temperature for this sensor!").
Proof.
  split; [|split].
  - destruct (proj1 (proj2 (last_temperature_is_latest decimalCoerce (jsInt 1) house
                              eq_refl))) as [r [H1 [_ [_ H2]]]].
    + discriminate.
    + exists r. split; [assumption|].
      apply (H2 (mkRow 1 "2024-05-01T08:00:00Z" (jsInt 21) 1)).
      * left; reflexivity.
      * reflexivity.
  - apply (proj1 (last_temperature_is_latest decimalCoerce (jsInt 3) house eq_refl)).
    reflexivity.
  - apply (proj2 (proj2 (last_temperature_is_latest decimalCoerce (jsInt 1) emptyHouse
                           eq_refl))).
    reflexivity.
Defined.

(** C7, counterexample. Not every attempt that matches no stored
    credentials gets the same message: a login as "mario" with no
    password, which the credential check would refuse too, is answered
    [{error: {message: 'Missing credentials'}}]. *)
Lemma login_without_password_is_answered_otherwise :
  oneUser "mario" "" = None /\
  postSessions oneUser morning None "mario" ""
    = LoginSent (mkResponse 401 (JsonErrorMessage "Missing credentials")) None /\
  postSessions oneUser morning None "mario" ""
    <> LoginSent (mkResponse 401 (JsonError "Incorrect username or password")) None.
Proof.
  repeat split; discriminate.
Qed.

Lemma login_failure_is_uniform_witness :
  postSessions oneUser morning None "luigi" "secret"
    = postSessions oneUser morning None "mario" "wrong" /\
  postSessions oneUser morning None "mario" "wrong"
    = LoginSent (mkResponse 401 (JsonError "Incorrect username or password")) None /\
  postSessions oneUser morning None "" "secret"
    = LoginSent (mkResponse 401 (JsonErrorMessage "Missing credentials")) None /\
  postSessions oneUser morning None "mario" "secret"
    = LoginSent (mkResponse 200 (JsonUser (mkUser 1 "mario" "Mario")))
                (Some (mkUser 1 "mario" "Mario")).
Proof.
  split; [|split; [|split]].
  - apply (proj1 (proj2 (login_failure_is_uniform oneUser))); (discriminate || reflexivity).
  - apply (proj1 (login_failure_is_uniform oneUser) morning None "mario" "wrong");
      (discriminate || reflexivity).
  - apply (proj1 (proj2 (proj2 (login_failure_is_uniform oneUser))) morning None "" "secret").
    left; reflexivity.
  - apply (proj2 (proj2 (proj2 (login_failure_is_uniform oneUser)))); (discriminate || reflexivity).
Defined.

Lemma put_id_mismatch_is_rejected_witness :
  putSwitchesId decimalCoerce bodyValidation decimalNumber morning putMismatch house
    = mkHandled (mkResponse 422 (JsonError "URL and body id mismatch")) house [] /\
  putLightsId decimalCoerce bodyValidation decimalNumber morning
      (mkRequest "8" (jsInt 7) (jsInt 2) (jsInt 3)) house
    = mkHandled (mkResponse 422 (JsonError "URL and body id mismatch")) house [].
Proof.
  split.
  - apply (proj1 (put_id_mismatch_is_rejected decimalCoerce bodyValidation decimalNumber
                    morning putMismatch house eq_refl)).
    reflexivity.
  - apply (proj2 (put_id_mismatch_is_rejected decimalCoerce bodyValidation decimalNumber
                    morning (mkRequest "8" (jsInt 7) (jsInt 2) (jsInt 3)) house eq_refl)).
    reflexivity.
Defined.

Lemma update_reads_back_with_record_user_witness :
  fst (updateSwitch decimalCoerce (jsInt 1) (jsInt 5) kitchenOn house)
    = Resolved (Found kitchenSwitch) /\
  fst (updateLight decimalCoerce (jsInt 1) (jsInt 7) hallDimmed house)
    = Resolved (NotFound "Light not found.").
Proof.
  split.
  - apply (proj1 (update_reads_back_with_record_user decimalCoerce
                    (jsInt 1) (jsInt 5) kitchenOn house eq_refl)).
  - apply (proj2 (update_reads_back_with_record_user decimalCoerce
                    (jsInt 1) (jsInt 7) hallDimmed house eq_refl)).
    intros r [<-|[<-|[]]]; reflexivity.
Defined.

(** * The further properties on the example platform *)

Ltac distinct := unfold distinctIds; simpl; repeat constructor; simpl; intuition discriminate.

Lemma get_hides_rows_of_other_users_witness :
  fst (getSwitch decimalCoerce (jsInt 1) (jsInt 5) house)
    = Resolved (NotFound "Switch not found.").
Proof.
  apply (get_hides_rows_of_other_users decimalCoerce Switches (jsInt 1) house kitchenSwitch).
  - distinct.
  - right; left; reflexivity.
  - discriminate.
  - reflexivity.
Defined.

Lemma get_finds_row_of_its_user_witness :
  getLight decimalCoerce (jsInt 2) (jsInt 8) house
    = (Resolved (Found (mkRow 8 "2024-05-01T12:00:00Z" (jsInt 10) 2)), advance house).
Proof.
  apply (get_finds_row_of_its_user decimalCoerce Lights house
           (mkRow 8 "2024-05-01T12:00:00Z" (jsInt 10) 2)).
  - distinct.
  - right; left; reflexivity.
  - reflexivity.
Defined.

Lemma get_of_absent_id_is_not_found_witness :
  getTemperature decimalCoerce (jsInt 1) (JStr "99") house
    = (Resolved (NotFound "Temperature not found."), advance house).
Proof.
  apply (get_of_absent_id_is_not_found decimalCoerce Temperatures (jsInt 1) (JStr "99")
           house).
  - intros r [<-|[<-|[<-|[]]]]; discriminate.
  - reflexivity.
Defined.

Lemma list_gives_the_rows_of_the_user_witness :
  exists l, listLights decimalCoerce (jsInt 1) house = (Resolved l, advance house) /\
            (forall x, In x l -> listed_user x = 1).
Proof.
  destruct (list_gives_the_rows_of_the_user decimalCoerce Lights (jsInt 1) house eq_refl)
    as [l [Hl [Hin _]]].
  exists l. split; [exact Hl|]. intros x Hx. apply Hin in Hx.
  destruct Hx as [r [_ [Hu ->]]]. simpl. now injection Hu.
Defined.

Lemma writes_keep_ids_distinct_witness :
  distinctIds (switches (snd (createSwitch decimalCoerce twentyDegrees house))) /\
  distinctIds (switches (snd (deleteSwitch decimalCoerce (jsInt 2) (jsInt 5) house))).
Proof.
  split.
  - apply (writes_keep_ids_distinct decimalCoerce Switches Switches (jsInt 2) (jsInt 5)
             twentyDegrees kitchenOn house). distinct.
  - apply (writes_keep_ids_distinct decimalCoerce Switches Switches (jsInt 2) (jsInt 5)
             twentyDegrees kitchenOn house). distinct.
Defined.

Lemma writes_keep_rows_of_other_users_witness :
  In kitchenSwitch (switches (snd (deleteSwitch decimalCoerce (jsInt 1) (jsInt 5) house))) /\
  In kitchenSwitch (switches (snd (updateSwitch decimalCoerce (jsInt 1) (jsInt 5)
                                     kitchenOn house))).
Proof.
  destruct (writes_keep_rows_of_other_users decimalCoerce (jsInt 1) (jsInt 5)
              twentyDegrees kitchenOn house kitchenSwitch) as [Hd [Hu _]].
  - discriminate.
  - split.
    + apply (Hd Switches). right; left; reflexivity.
    + apply Hu. right; left; reflexivity.
Defined.

Lemma failure_rejects_and_changes_nothing_witness :
  fst (deleteTemperature decimalCoerce (jsInt 1) (jsInt 2) lockedHouse)
    = Rejected "Error: SQLITE_BUSY: database is locked" /\
  temperatures (snd (deleteTemperature decimalCoerce (jsInt 1) (jsInt 2) lockedHouse))
    = temperatures house.
Proof.
  destruct (failure_rejects_and_changes_nothing decimalCoerce Temperatures (jsInt 1)
              (jsInt 2) kitchenOn lockedHouse "Error: SQLITE_BUSY: database is locked"
              eq_refl) as [_ [_ [[Hr Hrows] _]]].
  split; [exact Hr | exact (Hrows Temperatures)].
Defined.

Lemma failed_read_back_keeps_the_write_witness :
  fst (createTemperature decimalCoerce twentyDegrees lockedAtSecond)
    = Rejected "Error: SQLITE_BUSY: database is locked" /\
  List.length (temperatures (snd (createTemperature decimalCoerce twentyDegrees
                                    lockedAtSecond))) = 4%nat.
Proof.
  destruct (failed_read_back_keeps_the_write decimalCoerce Temperatures (jsInt 1) (jsInt 2)
              twentyDegrees kitchenOn lockedAtSecond
              "Error: SQLITE_BUSY: database is locked" eq_refl eq_refl)
    as [[Hr Hrows] _].
  split; [exact Hr|]. exact (f_equal (@List.length row) Hrows).
Defined.

Lemma delete_removes_matching_rows_only_witness :
  ~ In kitchenSwitch (switches (snd (deleteSwitch decimalCoerce (jsInt 2) (JStr "5") house))) /\
  lights (snd (deleteSwitch decimalCoerce (jsInt 2) (JStr "5") house)) = lights house.
Proof.
  destruct (delete_removes_matching_rows_only decimalCoerce Switches (jsInt 2) (JStr "5")
              house eq_refl) as [Hin [Hother _]].
  split.
  - intros H. apply (Hin kitchenSwitch) in H. destruct H as [_ H]. discriminate H.
  - apply (Hother Lights). discriminate.
Defined.

Lemma create_then_list_witness :
  exists r before,
    fst (listTemperatures decimalCoerce (jsInt 1) house) = Resolved before /\
    fst (listTemperatures decimalCoerce (jsInt 1)
           (snd (createTemperature decimalCoerce twentyDegrees house)))
      = Resolved (before ++ [withDayjs r]).
Proof.
  destruct (create_then_list decimalCoerce Temperatures twentyDegrees (jsInt 2) house
              eq_refl) as [r [before [_ [H1 [H2 _]]]]].
  exists r, before. split; assumption.
Defined.

Lemma create_then_last_temperature_witness :
  exists r,
    fst (createTemperature decimalCoerce twentyDegrees house) = Resolved (Found r) /\
    fst (getLastTemperature decimalCoerce (jsInt 1)
           (snd (createTemperature decimalCoerce twentyDegrees house)))
      = Resolved (Found r).
Proof.
  apply (create_then_last_temperature decimalCoerce twentyDegrees house).
  - reflexivity.
  - intros x [<-|[<-|[<-|[]]]] _; reflexivity.
Defined.

Lemma invalid_body_is_rejected_before_the_store_witness :
  postTemperatures decimalCoerce bodyValidation morning postWarm house
    = mkHandled (mkResponse 422 (JsonError "body[value]: Invalid value")) house [].
Proof.
  apply (proj1 (invalid_body_is_rejected_before_the_store decimalCoerce bodyValidation
                  decimalNumber morning postWarm house
                  [mkVerror "body" "value" "Invalid value"]
                  ltac:(discriminate))).
  reflexivity.
Defined.

Lemma post_temperature_creates_for_user_1_witness :
  (exists r, sent (postTemperatures decimalCoerce bodyValidation morning postTwenty house)
               = mkResponse 200 (JsonRow r) /\ row_user r = 1) /\
  status (sent (postTemperatures decimalCoerce bodyValidation morning postTwenty lockedHouse))
    = 503.
Proof.
  split.
  - destruct (proj1 (post_temperature_creates_for_user_1 decimalCoerce bodyValidation
                       morning postTwenty house eq_refl) eq_refl)
      as [r [Hs [_ [_ [Hu _]]]]].
    exists r. split; assumption.
  - destruct (proj2 (post_temperature_creates_for_user_1 decimalCoerce bodyValidation
                       morning postTwenty lockedHouse eq_refl)
                "Error: SQLITE_BUSY: database is locked" eq_refl) as [Hs _].
    now rewrite Hs.
Defined.

Lemma delete_temperature_route_witness :
  sent (deleteTemperaturesId decimalCoerce morning pathFour house)
    = mkResponse 200 JsonEmpty /\
  status (sent (deleteTemperaturesId decimalCoerce morning pathFour lockedHouse)) = 503.
Proof.
  split.
  - apply (proj1 (delete_temperature_route decimalCoerce morning pathFour house) eq_refl).
  - destruct (proj2 (delete_temperature_route decimalCoerce morning pathFour lockedHouse)
                "Error: SQLITE_BUSY: database is locked" eq_refl) as [Hs _].
    now rewrite Hs.
Defined.

Lemma get_by_id_route_answers_witness :
  sent (getSwitchesId decimalCoerce morning pathFour house)
    = mkResponse 200 (JsonRow (mkRow 4 "2024-05-01T09:00:00Z" (JBool true) 1)) /\
  sent (getLightsId decimalCoerce morning pathFour house)
    = mkResponse 404 (JsonError "Light not found.") /\
  sent (getTemperaturesId decimalCoerce morning pathFour lockedHouse)
    = mkResponse 500 NoBody.
Proof.
  split; [|split].
  - apply (proj1 (proj1 (get_by_id_route_answers decimalCoerce Switches morning pathFour
                           house) eq_refl)).
    reflexivity.
  - apply (proj2 (proj1 (get_by_id_route_answers decimalCoerce Lights morning pathFour
                           house) eq_refl)).
    reflexivity.
  - apply (proj1 (proj2 (get_by_id_route_answers decimalCoerce Temperatures morning
                           pathFour lockedHouse))
             "Error: SQLITE_BUSY: database is locked").
    reflexivity.
Defined.

Lemma get_routes_show_user_1_only_witness :
  row_user (mkRow 4 "2024-05-01T09:00:00Z" (JBool true) 1) = 1 /\
  switches (after (handle decimalCoerce bodyValidation decimalNumber GET_switches_id
                     morning pathFour house)) = switches house.
Proof.
  destruct (get_routes_show_user_1_only decimalCoerce bodyValidation decimalNumber
              GET_switches_id morning pathFour house eq_refl) as [Hrow [_ Hrows]].
  split.
  - apply (Hrow (mkRow 4 "2024-05-01T09:00:00Z" (JBool true) 1)). reflexivity.
  - apply (Hrows Switches).
Defined.

Lemma put_rewrites_the_record_witness :
  sent (putSwitchesId decimalCoerce bodyValidation decimalNumber morning putKitchen house)
    = mkResponse 200 (JsonRow kitchenOn).
Proof.
  apply (proj1 (put_rewrites_the_record decimalCoerce bodyValidation decimalNumber
                  morning putKitchen house kitchenSwitch eq_refl eq_refl)).
  - reflexivity.
  - reflexivity.
Defined.

Lemma put_of_unknown_record_is_404_witness :
  sent (putSwitchesId decimalCoerce bodyValidation decimalNumber morning putUnknown house)
    = mkResponse 404 (JsonError "Switch not found.").
Proof.
  apply (proj1 (put_of_unknown_record_is_404 decimalCoerce bodyValidation decimalNumber
                  morning putUnknown house eq_refl eq_refl)).
  - reflexivity.
  - reflexivity.
Defined.

Lemma put_answers_503_when_the_store_fails_witness :
  status (sent (putSwitchesId decimalCoerce bodyValidation decimalNumber morning
                  putKitchen lockedHouse)) = 503 /\
  status (sent (putSwitchesId decimalCoerce bodyValidation decimalNumber morning
                  putKitchen lockedAtSecond)) = 503 /\
  status (sent (putSwitchesId decimalCoerce bodyValidation decimalNumber morning
                  putKitchen lockedAtThird)) = 503.
Proof.
  split; [|split].
  - destruct (proj1 (put_answers_503_when_the_store_fails decimalCoerce bodyValidation
                       decimalNumber morning putKitchen lockedHouse
                       "Error: SQLITE_BUSY: database is locked" eq_refl eq_refl) eq_refl)
      as [Hs _].
    now rewrite Hs.
  - destruct (proj1 (proj2 (put_answers_503_when_the_store_fails decimalCoerce
                       bodyValidation decimalNumber morning putKitchen lockedAtSecond
                       "Error: SQLITE_BUSY: database is locked" eq_refl eq_refl))
                kitchenSwitch eq_refl eq_refl eq_refl) as [Hs _].
    now rewrite Hs.
  - destruct (proj2 (proj2 (put_answers_503_when_the_store_fails decimalCoerce
                       bodyValidation decimalNumber morning putKitchen lockedAtThird
                       "Error: SQLITE_BUSY: database is locked" eq_refl eq_refl))
                kitchenSwitch eq_refl eq_refl eq_refl) as [Hs _].
    now rewrite Hs.
Defined.

Lemma routes_touch_only_their_table_witness :
  lights (after (handle decimalCoerce bodyValidation decimalNumber PUT_switches_id
                   morning putKitchen house)) = lights house.
Proof.
  apply (routes_touch_only_their_table decimalCoerce bodyValidation decimalNumber
           PUT_switches_id morning putKitchen house Lights).
  discriminate.
Defined.

Lemma post_then_last_temperature_witness :
  exists r,
    sent (postTemperatures decimalCoerce bodyValidation morning postTwenty house)
      = mkResponse 200 (JsonRow r) /\
    sent (getTemperaturesLast decimalCoerce morning pathFour
            (after (postTemperatures decimalCoerce bodyValidation morning postTwenty house)))
      = mkResponse 200 (JsonRow r).
Proof.
  apply (post_then_last_temperature decimalCoerce bodyValidation morning morning
           postTwenty pathFour house).
  - reflexivity.
  - reflexivity.
  - intros x [<-|[<-|[<-|[]]]] _; reflexivity.
Defined.
